(** * Lurch settings metadata and expository-math atoms

    A shallow embedding of the two JavaScript modules of the repository:
    the settings-metadata classes ([SettingMetadata] and its subclasses,
    [SettingsCategoryMetadata], [SettingsMetadata]) and the expository-math
    atom ([ExpositoryMath.edit], [ExpositoryMath.update], [install]).

    JavaScript values are modelled as far as the code inspects them:
    - arguments documented as [any] or coerced by a template literal range
      over the values [Prim]: undefined, null, the booleans, the safe
      integers (the numbers that [Number.isSafeInteger] accepts, which a
      number represents exactly and prints in full), the strings and the
      Symbols.  Every other number (a fraction, NaN, an infinity, an
      integer from 2^53 on), BigInts and objects passed as such arguments
      are outside the model;
    - a setting's [name] and a lookup [key] are a string or undefined, as
      their JSDoc types say ([option string], [None] being undefined);
    - a throwing call returns [Throw], a normal one [Ok];
    - strings are [string]; each character stands for one code unit, so
      code units from 256 on are outside the model. *)

From Stdlib Require Import Ascii.
From stdpp Require Import base option list strings pretty gmap fin_maps.

(** ** JavaScript values and conversions *)

Module Js.

(** [Number.isSafeInteger]: the integers strictly between -2^53 and 2^53.
    A number holds each of them exactly, and its string form is the decimal
    numeral of the integer. *)
Definition is_safe_integer (n : Z) : bool :=
  (-9007199254740992 <? n)%Z && (n <? 9007199254740992)%Z.

Definition SafeInteger : Type := { n : Z | Is_true (is_safe_integer n) }.

#[global] Instance SafeInteger_eq_dec : EqDecision SafeInteger.
Proof. unfold SafeInteger. apply _. Defined.

Inductive Prim : Type :=
| PUndefined
| PNull
| PBool (b : bool)
| PNumber (n : SafeInteger)
| PStr (s : string)
| PSymbol (id : string).

(** The number [n], for a numeral [n] that is a safe integer. *)
Abbreviation PNum n := (PNumber (exist _ n%Z I)).

#[global] Instance Prim_eq_dec : EqDecision Prim.
Proof. solve_decision. Defined.

Inductive JsError : Type :=
| TypeError
| Error (message : string).

Inductive Result (A : Type) : Type :=
| Ok (a : A)
| Throw (e : JsError).
Arguments Ok {A} a.
Arguments Throw {A} e.

#[global] Instance Result_ret : MRet Result := λ A a, Ok a.
#[global] Instance Result_bind : MBind Result := λ A B f m,
  match m with Ok a => f a | Throw e => Throw e end.

Definition returns {A} (r : Result A) : Prop := ∃ a, r = Ok a.

(** ToString, as applied by a template literal [`${v}`]: a Symbol has no
    string form and the conversion throws a TypeError. *)
Definition ToString (v : Prim) : Result string :=
  match v with
  | PUndefined => Ok "undefined"
  | PNull => Ok "null"
  | PBool true => Ok "true"
  | PBool false => Ok "false"
  | PNumber n => Ok (pretty (`n))
  | PStr s => Ok s
  | PSymbol _ => Throw TypeError
  end.

(** ToBoolean, the truthiness test of [if ( v )], [!!v] and [a && b]. *)
Definition ToBoolean (v : Prim) : bool :=
  match v with
  | PUndefined | PNull => false
  | PBool b => b
  | PNumber n => negb (`n =? 0)%Z
  | PStr s => negb (String.eqb s "")
  | PSymbol _ => true
  end.

Inductive PropertyKey : Type :=
| KString (k : string)
| KSymbol (id : string).

(** ToPropertyKey, as applied by [o[v]] and [o.hasOwnProperty( v )]: a
    Symbol is a key of its own, every other primitive is stringified. *)
Definition ToPropertyKey (v : Prim) : PropertyKey :=
  match v with
  | PSymbol id => KSymbol id
  | PUndefined => KString "undefined"
  | PNull => KString "null"
  | PBool true => KString "true"
  | PBool false => KString "false"
  | PNumber n => KString (pretty (`n))
  | PStr s => KString s
  end.

(** A string of decimal digits. *)
Fixpoint digits_only (s : string) : bool :=
  match s with
  | EmptyString => true
  | String c rest => bool_decide (is_Some (Ascii.is_nat c)) && digits_only rest
  end.

Definition is_string (v : Prim) : bool :=
  match v with PStr _ => true | _ => false end.

Definition is_symbol (v : Prim) : bool :=
  match v with PSymbol _ => true | _ => false end.

(** [a === b] on primitives. *)
Definition strict_eq (a b : Prim) : bool := bool_decide (a = b).

(** [a == b] where each side is a string or undefined. *)
Definition loose_eq (a b : option string) : bool := bool_decide (a = b).

(** Truthiness of a value that is a string or undefined. *)
Definition truthy_name (n : option string) : bool :=
  match n with
  | None => false
  | Some s => negb (String.eqb s "")
  end.

Definition of_name (n : option string) : Prim :=
  match n with None => PUndefined | Some s => PStr s end.

(** JSON-like data, the shape of the dialog controls that [control()]
    returns: property lists are in insertion order. *)
#[warnings="-register-all"]
Inductive Json : Type :=
| JPrim (p : Prim)
| JArr (elements : list Json)
| JObj (properties : list (string * Json)).

End Js.
Export Js.

(** ** A single setting: [SettingMetadata] and its subclasses *)

(** One entry of a category setting's [items] array,
    [{ value : ..., text : ... }]. *)
Record Item : Type := { value : Prim; text : Prim }.

(** An instance of [SettingMetadata] or of one of its leaf subclasses.  The
    constructor records the class, which fixes the [type] property and the
    [convert] method; the arguments are the remaining own properties. *)
Inductive Metadata : Type :=
| MBase (name : option string) (label defaultValue : Prim)
| MBool (name : option string) (label defaultValue : Prim)
| MColor (name : option string) (label defaultValue : Prim)
| MText (name : option string) (label defaultValue : Prim)
| MCategory (name : option string) (label defaultValue : Prim)
            (items : list Item)
| MAlertBanner (level : Prim) (icon : string) (text : Prim)
| MHtmlPanel (html : Prim).

Module SettingMetadata.

Definition name (m : Metadata) : option string :=
  match m with
  | MBase n _ _ | MBool n _ _ | MColor n _ _ | MText n _ _
  | MCategory n _ _ _ => n
  | MAlertBanner _ _ _ | MHtmlPanel _ => None
  end.

Definition label (m : Metadata) : Prim :=
  match m with
  | MBase _ l _ | MBool _ l _ | MColor _ l _ | MText _ l _
  | MCategory _ l _ _ => l
  | MAlertBanner _ _ _ | MHtmlPanel _ => PUndefined
  end.

Definition defaultValue (m : Metadata) : Prim :=
  match m with
  | MBase _ _ d | MBool _ _ d | MColor _ _ d | MText _ _ d
  | MCategory _ _ d _ => d
  | MAlertBanner _ _ _ | MHtmlPanel _ => PUndefined
  end.

(** The [type] property; the base class sets none. *)
Definition type (m : Metadata) : option string :=
  match m with
  | MBase _ _ _ => None
  | MBool _ _ _ => Some "checkbox"
  | MColor _ _ _ => Some "colorinput"
  | MText _ _ _ => Some "input"
  | MCategory _ _ _ _ => Some "selectbox"
  | MAlertBanner _ _ _ => Some "alertbanner"
  | MHtmlPanel _ => Some "htmlpanel"
  end.

Definition items (m : Metadata) : list Item :=
  match m with
  | MCategory _ _ _ its => its
  | _ => []
  end.

(** An instance of [NoteMetadata], which stands for no setting. *)
Definition is_note (m : Metadata) : bool :=
  match m with
  | MAlertBanner _ _ _ | MHtmlPanel _ => true
  | _ => false
  end.

Definition item_json (it : Item) : Json :=
  JObj [("value", JPrim (value it)); ("text", JPrim (text it))].

(** The own properties of the object, in the order the constructors
    assign them: [name], [label], [defaultValue] by the base constructor,
    then what the subclass adds. *)
Definition own_properties (m : Metadata) : list (string * Json) :=
  [("name", JPrim (of_name (name m))); ("label", JPrim (label m));
   ("defaultValue", JPrim (defaultValue m))]
  ++ match type m with Some t => [("type", JPrim (PStr t))] | None => [] end
  ++ match m with
     | MCategory _ _ _ its => [("items", JArr (item_json <$> its))]
     | MAlertBanner level icon text =>
         [("level", JPrim level); ("icon", JPrim (PStr icon));
          ("text", JPrim text)]
     | MHtmlPanel html => [("html", JPrim html)]
     | _ => []
     end.

(** Modelled from the spec: [copyWithoutPrototype] of [./utilities.js],
    which is not among the sources; by its name and by the description of
    [control()] it yields a new plain object holding the own properties of
    its argument. *)
Definition copyWithoutPrototype (m : Metadata) : list (string * Json) :=
  own_properties m.

(** [delete o.k] on a property list. *)
Definition delete_property (k : string) (o : list (string * Json))
  : list (string * Json) :=
  filter (λ p, p.1 ≠ k) o.

(** [control ()]: the copy, with [defaultValue] deleted. *)
Definition control (m : Metadata) : Json :=
  let result := copyWithoutPrototype m in
  JObj (delete_property "defaultValue" result).

(** [this.items.some( item => item.value === `${data}` )]: the template
    literal is evaluated once per visited item, [some] stops at the first
    hit, and on an empty array the callback never runs. *)
Fixpoint some_value_is (its : list Item) (data : Prim) : Result bool :=
  match its with
  | [] => Ok false
  | it :: rest =>
      s ← ToString data;
      if strict_eq (value it) (PStr s) then Ok true
      else some_value_is rest data
  end.

(** [convert ( data )]: the base method returns its argument; the boolean
    and the categorical settings override it.  [this.items[0].value] on an
    empty array reads a property of undefined, a TypeError. *)
Definition convert (m : Metadata) (data : Prim) : Result Prim :=
  match m with
  | MBool _ _ _ =>
      Ok (PBool (strict_eq data (PBool true)
                 || strict_eq data (PStr "true")))
  | MCategory _ _ _ its =>
      found ← some_value_is its data;
      if found : bool then s ← ToString data; Ok (PStr s)
      else match its with
           | [] => Throw TypeError
           | it :: _ => Ok (value it)
           end
  | _ => Ok data
  end.

End SettingMetadata.

(** The constructors of the leaf classes. *)

Definition BoolSettingMetadata (name : option string) (label defaultValue : Prim)
  : Metadata := MBool name label defaultValue.

Definition ColorSettingMetadata (name : option string) (label defaultValue : Prim)
  : Metadata := MColor name label defaultValue.

(** [super( name, label, `${defaultValue}` )] *)
Definition TextSettingMetadata (name : option string) (label defaultValue : Prim)
  : Result Metadata :=
  d ← ToString defaultValue;
  Ok (MText name label (PStr d)).

(** The callback of [options.map],
    [option => { return { value : `${option}`, text : `${option}` } }]. *)
Definition option_item (option : Prim) : Result Item :=
  v ← ToString option;
  t ← ToString option;
  Ok {| value := PStr v; text := PStr t |}.

(** [super( name, label, `${defaultValue}` )], then [options.map]; a
    callback that throws ends the map. *)
Definition CategorySettingMetadata (name : option string) (label : Prim)
    (options : list Prim) (defaultValue : Prim) : Result Metadata :=
  d ← ToString defaultValue;
  its ← mapM option_item options;
  Ok (MCategory name label (PStr d) its).

Module NoteMetadata.

Definition styleToIcon : gmap string string :=
  list_to_map [("info", "info"); ("warn", "warning");
               ("error", "notice"); ("success", "selected")].

(** The styles that [NoteMetadata] documents as valid. *)
Definition styles : list Prim :=
  [PStr "info"; PStr "warn"; PStr "error"; PStr "success"].

(** [NoteMetadata.styleToIcon[style]] where it is an own property, which
    is what [hasOwnProperty( style )] tests; the object has no Symbol
    keys. *)
Definition icon_of (style : Prim) : option string :=
  match ToPropertyKey style with
  | KString k => styleToIcon !! k
  | KSymbol _ => None
  end.

(** [new NoteMetadata( content, style )]: the error message is itself a
    template literal over [style]. *)
Definition new (content style : Prim) : Result Metadata :=
  if ToBoolean style then
    match icon_of style with
    | None =>
        s ← ToString style;
        Throw (Error ("Invalid note style: " +:+ s))
    | Some icon => Ok (MAlertBanner style icon content)
    end
  else Ok (MHtmlPanel content).

End NoteMetadata.


(** ** Plain objects used as dictionaries

    [defaultSettings()] builds an object literal [{ }] and assigns
    [result[name] = value].  Such an object inherits from
    [Object.prototype], whose accessor property [__proto__] intercepts an
    assignment to that key: no own property is created, and only the value
    [null] has an effect, removing the prototype.  A read of a key that is
    not an own property falls through to [Object.prototype]. *)

Module PlainObject.

Record t : Type := {
  has_prototype : bool;       (* inherits from Object.prototype *)
  own : gmap string Prim      (* own enumerable data properties *)
}.

(** What a property read yields: a primitive, or the built-in function or
    object that [Object.prototype] holds under the key. *)
Inductive Value : Type :=
| Primitive (p : Prim)
| Builtin (member : string).

Definition object_prototype_keys : list string :=
  ["constructor"; "__defineGetter__"; "__defineSetter__"; "hasOwnProperty";
   "__lookupGetter__"; "__lookupSetter__"; "isPrototypeOf";
   "propertyIsEnumerable"; "toString"; "valueOf"; "__proto__";
   "toLocaleString"].

(** [{ }] *)
Definition empty : t := {| has_prototype := true; own := ∅ |}.

(** [o[k] = v] *)
Definition set (k : string) (v : Prim) (o : t) : t :=
  if bool_decide (k = "__proto__") && has_prototype o
     && bool_decide (own o !! k = None)
  then if bool_decide (v = PNull)
       then {| has_prototype := false; own := own o |}
       else o
  else {| has_prototype := has_prototype o; own := <[k:=v]> (own o) |}.

(** [o[k]] *)
Definition get (o : t) (k : string) : Value :=
  match own o !! k with
  | Some v => Primitive v
  | None =>
      if has_prototype o && bool_decide (k ∈ object_prototype_keys)
      then Builtin k
      else Primitive PUndefined
  end.

(** [{ ...a, ...b }]: a new object literal receiving the own properties of
    [a], then those of [b]. *)
Definition spread (a b : t) : t :=
  {| has_prototype := true; own := own b ∪ own a |}.

End PlainObject.

(** ** Categories of settings and the whole collection *)

(** [new SettingsCategoryMetadata( name, ...contents )] *)
Record Category : Type := {
  category_name : Prim;
  contents : list Metadata
}.

(** [new SettingsMetadata( ...categories )] *)
Record Settings : Type := {
  categories : list Category
}.

Module SettingsCategoryMetadata.

Definition control (c : Category) : Json :=
  JObj [("name", JPrim (category_name c));
        ("title", JPrim (category_name c));
        ("items", JArr (SettingMetadata.control <$> contents c))].

(** [contents.map( metadata => metadata.name ).filter( name => !!name )] *)
Definition keys (c : Category) : list (option string) :=
  filter (λ name, truthy_name name) (SettingMetadata.name <$> contents c).

(** The body of the [forEach] callback,
    [if ( metadata.name ) result[metadata.name] = metadata.defaultValue]. *)
Definition record_default (result : PlainObject.t) (metadata : Metadata)
  : PlainObject.t :=
  match SettingMetadata.name metadata with
  | Some k =>
      if truthy_name (Some k)
      then PlainObject.set k (SettingMetadata.defaultValue metadata) result
      else result
  | None => result
  end.

Definition defaultSettings (c : Category) : PlainObject.t :=
  foldl record_default PlainObject.empty (contents c).

(** [contents.find( metadata => metadata.name == key )]; [None] stands for
    undefined. *)
Definition metadataFor (c : Category) (key : option string)
  : option Metadata :=
  List.find (λ metadata, loose_eq (SettingMetadata.name metadata) key)
            (contents c).

End SettingsCategoryMetadata.

Module SettingsMetadata.

Definition control (s : Settings) : Json :=
  JObj [("type", JPrim (PStr "tabpanel"));
        ("tabs", JArr (SettingsCategoryMetadata.control <$> categories s))].

(** [categories.map( category => category.keys() )
               .reduce( ( a, b ) => [ ...a, ...b ], [ ] )] *)
Definition keys (s : Settings) : list (option string) :=
  foldl (λ a b, a ++ b) [] (SettingsCategoryMetadata.keys <$> categories s).

Definition defaultSettings (s : Settings) : PlainObject.t :=
  foldl PlainObject.spread PlainObject.empty
        (SettingsCategoryMetadata.defaultSettings <$> categories s).

(** The [for] loop over the categories: the first category whose lookup
    yields an object (always truthy) decides; falling off the loop returns
    undefined. *)
Fixpoint metadataFor_loop (cats : list Category) (key : option string)
  : option Metadata :=
  match cats with
  | [] => None
  | c :: rest =>
      match SettingsCategoryMetadata.metadataFor c key with
      | Some result => Some result
      | None => metadataFor_loop rest key
      end
  end.

Definition metadataFor (s : Settings) (key : option string)
  : option Metadata :=
  metadataFor_loop (categories s) key.

End SettingsMetadata.

(** The key list as the description of the tree gives it: category by
    category, entry by entry, the name of each entry that has a non-empty
    one. *)
Definition named (m : Metadata) : list string :=
  match SettingMetadata.name m with
  | Some s => if decide (s = "") then [] else [s]
  | None => []
  end.

Definition tree_keys (s : Settings) : list string :=
  c ← categories s; m ← contents c; named m.

(** ** [control()] on the heap

    The functions above give the value that [control()] returns.  Whether
    that value is a new object, and what a later mutation of it reaches, is
    a matter of object identity: objects live at locations of a heap and
    hold their own properties.  Property values are left abstract, since a
    copy of the own properties never inspects them (a value that is itself
    a reference, such as [items], is copied as the same reference). *)

Module Heap.
Section heap.
Context {V : Type}.

Local Abbreviation heap := (gmap positive (gmap string V)).

(** Modelled from the spec: [copyWithoutPrototype] of [./utilities.js],
    which is not among the sources; by its name and by the description of
    [control()] it allocates a new plain object and gives it the own
    properties of its argument. *)
Definition copyWithoutPrototype (this : positive) (h : heap)
  : option (positive * heap) :=
  o ← h !! this;
  let result := fresh (dom h) in
  Some (result, <[result := o]> h).

(** [o[k] = v] and [delete o[k]] on the object at a location. *)
Definition set_property (l : positive) (k : string) (v : V) (h : heap)
  : heap := alter (insert k v) l h.

Definition delete_property (l : positive) (k : string) (h : heap) : heap :=
  alter (delete k) l h.

(** [SettingMetadata.control ()] *)
Definition control (this : positive) (h : heap) : option (positive * heap) :=
  '(result, h1) ← copyWithoutPrototype this h;
  Some (result, delete_property result "defaultValue" h1).

End heap.
End Heap.

(** ** The expository-math atom *)

Module ExpositoryMath.

(** [String.prototype.trim]: white space and line terminators are removed
    at both ends.  Among the code units below 256 these are tab, line feed,
    vertical tab, form feed, carriage return, space and no-break space. *)
Definition is_white_space (c : ascii) : bool :=
  bool_decide (nat_of_ascii c ∈ [9; 10; 11; 12; 13; 32; 160]).

Fixpoint trim_start (s : string) : string :=
  match s with
  | String c rest => if is_white_space c then trim_start rest else s
  | EmptyString => EmptyString
  end.

Definition trim (s : string) : string :=
  String.rev (trim_start (String.rev (trim_start s))).

(** An atom of the document: its metadata and its named children. *)
Record Atom : Type := {
  metadata : gmap string string;
  children : gmap string string
}.

(** The editing dialog of [edit()], with the atom it edits: the value of
    the text input, which is the dialog's field ['latex'], the value of the
    MathLive editor of the item ['preview'], and which buttons are
    enabled. *)
Record World : Type := {
  atom : Atom;
  latex_input : string;
  math_editor : string;
  enabled : gmap string bool
}.

(** Handlers run in a state monad over the dialog. *)
Definition UI (A : Type) : Type := World → A * World.

#[global] Instance UI_ret : MRet UI := λ A a w, (a, w).
#[global] Instance UI_bind : MBind UI := λ A B f m w,
  let '(a, w') := m w in f a w'.

(** The collaborators that the module imports ([Dialog], [MathItem], the
    TinyMCE dialog API and the [Atom] base class) are not among the
    sources.  Each is modelled by its effect on the two widgets, the
    buttons and the atom. *)

(** Modelled from the spec: [dialog.get( 'latex' )] of [./dialog.js], the
    current value of the text field named ['latex']. *)
Definition dialog_get_latex : UI string := λ w, (latex_input w, w).

(** Modelled from the spec: [mathLivePreview.setValue( v )] of
    [./math-live.js], which shows [v] in the math-editor widget. *)
Definition mathLivePreview_setValue (v : string) : UI unit := λ w,
  (tt, {| atom := atom w; latex_input := latex_input w;
          math_editor := v; enabled := enabled w |}).

(** Modelled from the spec: [mathLivePreview.mathLiveEditor.value], the
    content of the math-editor widget. *)
Definition mathLiveEditor_value : UI string := λ w, (math_editor w, w).

(** Modelled from the spec:
    [dialog.querySelector( 'input[type="text"]' ).value = v], a write to the
    text field, the only text input of the dialog. *)
Definition latexInput_set_value (v : string) : UI unit := λ w,
  (tt, {| atom := atom w; latex_input := v;
          math_editor := math_editor w; enabled := enabled w |}).

(** Modelled from the spec: [dialog.dialog.setEnabled( name, state )] of
    the host editor's dialog API. *)
Definition dialog_setEnabled (name : string) (state : bool) : UI unit := λ w,
  (tt, {| atom := atom w; latex_input := latex_input w;
          math_editor := math_editor w;
          enabled := <[name := state]> (enabled w) |}).

(** Modelled from the spec: [this.getMetadata( key )] of the [Atom] base
    class; [None] is undefined. *)
Definition getMetadata (a : Atom) (key : string) : option string :=
  metadata a !! key.

(** Modelled from the spec: [this.setMetadata( key, value )] of the [Atom]
    base class. *)
Definition setMetadata (key value : string) (a : Atom) : Atom :=
  {| metadata := <[key := value]> (metadata a); children := children a |}.

(** Modelled from the spec: [this.fillChild( child, html )] of the [Atom]
    base class. *)
Definition fillChild (child html : string) (a : Atom) : Atom :=
  {| metadata := metadata a; children := <[child := html]> (children a) |}.

(** A method of the atom, called from a handler of the dialog. *)
Definition on_atom (f : Atom → Atom) : UI unit := λ w,
  (tt, {| atom := f (atom w); latex_input := latex_input w;
          math_editor := math_editor w; enabled := enabled w |}).

Section atom.

(** [represent] of [./notation.js], the rendering of notation as HTML, is a
    parameter. *)
Variable represent : option string → string → string.

(** [const empty = () => dialog.get( 'latex' ).trim() == ''] *)
Definition empty : UI bool :=
  v ← dialog_get_latex; mret (String.eqb (trim v) "").

(** [dialog.onChange = ( _, component ) => { ... }] *)
Definition onChange (component_name : option string) : UI unit :=
  _ ← (if loose_eq component_name (Some "latex")
       then v ← dialog_get_latex; mathLivePreview_setValue v
       else mret tt);
  _ ← (if loose_eq component_name (Some "preview")
       then v ← mathLiveEditor_value; latexInput_set_value v
       else mret tt);
  e ← empty;
  dialog_setEnabled "OK" (negb e).

(** [update ()] *)
Definition update (this : Atom) : Atom :=
  let latex := getMetadata this "latex" in
  fillChild "body" (represent latex "latex") this.

(** The callback of [dialog.show().then( userHitOK => { ... } )]; in
    [!userHitOK || empty()] the right operand is evaluated only after
    OK. *)
Definition onShown (userHitOK : bool) : UI bool :=
  cancel ← (if negb userHitOK then mret true else empty);
  if cancel : bool then mret false
  else
    v ← dialog_get_latex;
    _ ← on_atom (setMetadata "latex" v);
    _ ← on_atom update;
    mret true.

(** What the user does while the dialog is open: edit the text input or
    edit in the MathLive editor; the dialog then reports a change of the
    component of that name. *)
Inductive UserAction : Type :=
| TypeLatex (v : string)
| EditMath (v : string).

(** The widget takes the new value, then [onChange] runs. *)
Definition perform (a : UserAction) : UI unit :=
  match a with
  | TypeLatex v => _ ← latexInput_set_value v; onChange (Some "latex")
  | EditMath v => _ ← mathLivePreview_setValue v; onChange (Some "preview")
  end.

Fixpoint perform_all (script : list UserAction) : UI unit :=
  match script with
  | [] => mret tt
  | a :: rest => _ ← perform a; perform_all rest
  end.

(** The dialog as [edit()] sets it up for an atom whose ['latex'] metadata
    is [latex]: both widgets show it ([setInitialData], [finishSetup]) and
    the OK button is enabled unless it is empty. *)
Definition open_dialog (a : Atom) (latex : string) : World :=
  {| atom := a; latex_input := latex; math_editor := latex;
     enabled := {[ "OK" := negb (String.eqb (trim latex) "") ]} |}.

(** [edit ()]: the dialog is set up, the user acts on it and closes it with
    OK or Cancel; the result is what the promise resolves to, and the
    atom.  An atom without ['latex'] metadata is outside the model
    ([None]). *)
Definition edit (a : Atom) (script : list UserAction) (userHitOK : bool)
  : option (bool * Atom) :=
  latex ← metadata a !! "latex";
  let '(_, w) := perform_all script (open_dialog a latex) in
  let '(result, w') := onShown userHitOK w in
  Some (result, atom w').

(** *** [install] *)

(** What a handler asks of its surroundings. *)
Inductive Call : Type :=
| PreventDefault
| StopPropagation
| EditThenInsert (a : Atom).

(** Modelled from the spec: [Atom.newInline( editor, content, metadata )],
    a new inline atom with the given metadata. *)
Definition newInline (content : string) (md : list (string * string))
  : Atom :=
  {| metadata := list_to_map md; children := ∅ |}.

Definition insertExpositoryMath : list Call :=
  let atom := newInline "" [("type", "expositorymath"); ("latex", "")] in
  let atom := update atom in
  [EditThenInsert atom].

Record MenuItem : Type := {
  item_text : string;
  item_icon : string;
  item_tooltip : string;
  item_shortcut : string;
  onAction : list Call
}.

(** Modelled from the spec: [appSettings.get( key )] of
    [./settings-install.js], the current value of a setting. *)
Definition appSettings_get (settings : gmap string Prim) (key : string)
  : Prim := default PUndefined (settings !! key).

(** A listener on the document body: from the settings in force and the
    key of the event to what it does. *)
Definition KeyListener : Type := gmap string Prim → string → list Call.

(** The editor as [install] uses it: the menu-item registry, the callbacks
    registered with [editor.on], and the listeners on the body of the
    document, by event type.  A callback of [editor.on] acts on those
    listeners. *)
Record Editor : Type := {
  registry : gmap string MenuItem;
  callbacks : list (string * (list (string * KeyListener)
                              → list (string * KeyListener)));
  body_listeners : list (string * KeyListener)
}.

Definition addMenuItem (name : string) (item : MenuItem) (e : Editor)
  : Editor :=
  {| registry := <[name := item]> (registry e);
     callbacks := callbacks e; body_listeners := body_listeners e |}.

Definition editor_on (event : string)
    (callback : list (string * KeyListener) → list (string * KeyListener))
    (e : Editor) : Editor :=
  {| registry := registry e;
     callbacks := callbacks e ++ [(event, callback)];
     body_listeners := body_listeners e |}.

Definition addEventListener (event : string) (l : KeyListener)
    (body : list (string * KeyListener)) : list (string * KeyListener) :=
  body ++ [(event, l)].

(** The editor fires an event: the callbacks registered for it run in
    order. *)
Definition fire (event : string) (e : Editor) : Editor :=
  {| registry := registry e; callbacks := callbacks e;
     body_listeners :=
       foldl (λ body cb, if String.eqb cb.1 event then cb.2 body else body)
             (body_listeners e) (callbacks e) |}.

(** A key is pressed in the document: the keypress listeners run in
    order. *)
Definition press (e : Editor) (settings : gmap string Prim) (key : string)
  : list Call :=
  l ← body_listeners e;
  if String.eqb l.1 "keypress" then l.2 settings key else [].

(** The listener of [install]:
    [event.key == '$' && appSettings.get( 'dollar sign shortcut' )]. *)
Definition on_keypress : KeyListener := λ settings key,
  if String.eqb key "$"
     && ToBoolean (appSettings_get settings "dollar sign shortcut")
  then [PreventDefault; StopPropagation] ++ insertExpositoryMath
  else [].

Definition install (editor : Editor) : Editor :=
  let editor :=
    addMenuItem "expositorymath"
      {| item_text := "Expository math";
         item_icon := "insert-character";
         item_tooltip := "Insert expository math";
         item_shortcut := "Meta+Alt+E";
         onAction := insertExpositoryMath |} editor in
  editor_on "init" (addEventListener "keypress" on_keypress) editor.

End atom.
End ExpositoryMath.

(** ** Further parts of the two modules *)

(** The entries of the whole collection in document order: category by
    category, each category's contents in stored order. *)
Definition entries (s : Settings) : list Metadata :=
  c ← categories s; contents c.

(** Whether a control, or a control nested in it, has a property [k]. *)
Fixpoint has_property (k : string) (j : Json) : bool :=
  match j with
  | JPrim _ => false
  | JArr elements => existsb (has_property k) elements
  | JObj properties =>
      existsb (λ p, String.eqb p.1 k || has_property k p.2) properties
  end.

Module ExpositoryMathDialog.
Import ExpositoryMath.

(** [`${v}`] for a value that is a string or undefined. *)
Definition template (v : option string) : string :=
  match v with Some s => s | None => "undefined" end.

(** [toEmbed ()]: [`<latex>${this.getMetadata( 'latex' )}</latex>`] *)
Definition toEmbed (this : Atom) : string :=
  "<latex>" +:+ template (getMetadata this "latex") +:+ "</latex>".

(** [mode == word] for a [word] that is not a numeric literal, such as
    ['Advanced'] and ['Beginner']: a boolean or a number is compared with the
    numeric value of the word, which is NaN, and undefined, null and Symbols
    equal no string, so only the same string is equal to it. *)
Definition is_mode (mode : Prim) (word : string) : bool :=
  strict_eq mode (PStr word).

(** What [edit()] configures from the editor type [mode] before it shows
    the dialog: the header and footer, the labels of the two items, whether
    [finishSetup] makes the MathLive editor read-only, which item has the
    focus, and whether the latex input is hidden
    ([style.display = mode == 'Beginner' ? 'none' : '']). *)
Record DialogSetup : Type := {
  dialog_title : string;
  hideHeader : bool;
  hideFooter : bool;
  latex_label : string;
  preview_label : string;
  sets_readOnly : bool;
  defaultFocus : string;
  latex_hidden : bool
}.

Definition dialog_setup (mode : Prim) : DialogSetup :=
  {| dialog_title := "Edit expository math";
     hideHeader := is_mode mode "Advanced";
     hideFooter := is_mode mode "Advanced";
     latex_label := if is_mode mode "Advanced" then "" else "LaTeX notation";
     preview_label := if is_mode mode "Advanced" then "" else "Math editor";
     sets_readOnly := is_mode mode "Advanced";
     defaultFocus := "latex";
     latex_hidden := is_mode mode "Beginner" |}.

(** The [keydown] listener on the latex input:
    [if ( event.key == 'Enter' && empty() ) { event.preventDefault();
    event.stopPropagation(); return false }]. *)
Definition on_keydown (key : string) (w : World) : list Call :=
  if String.eqb key "Enter" && (empty w).1
  then [PreventDefault; StopPropagation]
  else [].

(** The value that a user action enters, and the value entered last in a
    dialog that opened on [latex]. *)
Definition entered (a : UserAction) : string :=
  match a with TypeLatex v | EditMath v => v end.

Definition final_value (latex : string) (script : list UserAction) : string :=
  from_option entered latex (last script).

End ExpositoryMathDialog.

(** * Properties *)

(** ** The definitions on sample inputs *)

Example text_default_is_stringified :
  TextSettingMetadata (Some "indent") (PStr "Indent") (PNum (-12))
  = Ok (MText (Some "indent") (PStr "Indent") (PStr "-12")).
Proof. vm_compute. reflexivity. Qed.

Example category_options_are_stringified :
  CategorySettingMetadata (Some "size") (PStr "Size")
    [PNum 10; PBool true; PNull] (PNum 10)
  = Ok (MCategory (Some "size") (PStr "Size") (PStr "10")
          [ {| value := PStr "10"; text := PStr "10" |};
            {| value := PStr "true"; text := PStr "true" |};
            {| value := PStr "null"; text := PStr "null" |} ]).
Proof. vm_compute. reflexivity. Qed.

Example bool_convert_samples :
  SettingMetadata.convert
    (BoolSettingMetadata (Some "b") (PStr "B") (PBool false)) (PStr "true")
  = Ok (PBool true)
  ∧ SettingMetadata.convert
      (BoolSettingMetadata (Some "b") (PStr "B") (PBool false)) (PNum 1)
    = Ok (PBool false)
  ∧ SettingMetadata.convert
      (ColorSettingMetadata (Some "c") (PStr "C") (PStr "#fff")) (PNum 1)
    = Ok (PNum 1).
Proof. repeat split. Qed.

Example category_convert_samples :
  let m := MCategory (Some "size") (PStr "Size") (PStr "10")
             [ {| value := PStr "10"; text := PStr "10" |};
               {| value := PStr "12"; text := PStr "12" |} ] in
  SettingMetadata.convert m (PNum 12) = Ok (PStr "12")
  ∧ SettingMetadata.convert m (PStr "14") = Ok (PStr "10")
  ∧ SettingMetadata.convert m (PSymbol "s") = Throw TypeError.
Proof. vm_compute. repeat split. Qed.

Example note_samples :
  NoteMetadata.new (PStr "Saved.") (PStr "success")
  = Ok (MAlertBanner (PStr "success") "selected" (PStr "Saved."))
  ∧ NoteMetadata.new (PStr "<p>About</p>") PUndefined
    = Ok (MHtmlPanel (PStr "<p>About</p>"))
  ∧ NoteMetadata.new (PStr "Saved.") (PStr "loud")
    = Throw (Error "Invalid note style: loud")
  ∧ NoteMetadata.new (PStr "Saved.") (PStr "toString")
    = Throw (Error "Invalid note style: toString")
  ∧ NoteMetadata.new (PStr "Saved.") (PSymbol "s") = Throw TypeError.
Proof. vm_compute. repeat split. Qed.

Example control_sample :
  SettingMetadata.control
    (BoolSettingMetadata (Some "b") (PStr "B") (PBool false))
  = JObj [("name", JPrim (PStr "b")); ("label", JPrim (PStr "B"));
          ("type", JPrim (PStr "checkbox"))].
Proof. reflexivity. Qed.

Example trim_samples :
  ExpositoryMath.trim "  x^2 " = "x^2"
  ∧ ExpositoryMath.trim (String (ascii_of_nat 9) " ") = ""
  ∧ ExpositoryMath.trim "a b" = "a b".
Proof. vm_compute. repeat split. Qed.

(** ** Conversions *)


Lemma ToString_throws v : is_symbol v → ToString v = Throw TypeError.
Proof. by destruct v as [| |[]| | |]. Qed.

Lemma ToString_Ok_not_symbol v s : ToString v = Ok s → ¬ is_symbol v.
Proof. destruct v; simpl; intros H; by auto. Qed.

Lemma strict_eq_spec a b : strict_eq a b = true ↔ a = b.
Proof. unfold strict_eq. by rewrite bool_decide_eq_true. Qed.

Lemma loose_eq_spec a b : loose_eq a b = true ↔ a = b.
Proof. unfold loose_eq. by rewrite bool_decide_eq_true. Qed.

Lemma truthy_name_spec n :
  truthy_name n = true ↔ ∃ s, n = Some s ∧ s ≠ "".
Proof.
  destruct n as [s|]; simpl.
  - rewrite negb_true_iff, String.eqb_neq.
    split; [intros H; by exists s | by intros (s' & [= ->] & H)].
  - split; [done | by intros (s' & ? & _)].
Qed.

(** The decimal form of a number is digits after an optional sign, so it is
    none of the words the module uses as keys. *)
Lemma pretty_N_go_digits x s : digits_only s → digits_only (pretty_N_go x s).
Proof.
  revert s. induction (N.lt_wf_0 x) as [x _ IH]; intros s Hs.
  destruct (decide (x = 0)%N) as [->|Hx]; [by rewrite pretty_N_go_0|].
  rewrite pretty_N_go_step by lia. apply IH; [apply N.div_lt; lia|].
  simpl. apply andb_True. split; [|done]. apply bool_decide_pack.
  unfold pretty_N_char. repeat case_match; by eexists.
Qed.

Lemma pretty_Z_shape (n : Z) :
  digits_only (pretty n) ∨ ∃ s, pretty n = String "-"%char s.
Proof.
  destruct n as [|p|p]; [by left| |right; by eexists].
  left. unfold pretty, pretty_Z, pretty, pretty_positive, pretty, pretty_N.
  case_decide; [done|]. by apply pretty_N_go_digits.
Qed.

Lemma styleToIcon_keys k :
  is_Some (NoteMetadata.styleToIcon !! k) → PStr k ∈ NoteMetadata.styles.
Proof.
  intros [icon H]. apply elem_of_list_to_map_2 in H.
  unfold NoteMetadata.styles. set_unfold.
  destruct H as [H|[H|[H|[H|[]]]]]; injection H as -> _; auto.
Qed.

Lemma pretty_Z_not_style (n : Z) : PStr (pretty n) ∉ NoteMetadata.styles.
Proof.
  unfold NoteMetadata.styles. intros H. set_unfold.
  destruct (pretty_Z_shape n) as [Hd|[s Hs]].
  - destruct H as [H|[H|[H|[H|[]]]]]; injection H as H;
      rewrite H in Hd; done.
  - destruct H as [H|[H|[H|[H|[]]]]]; injection H as H;
      rewrite H in Hs; done.
Qed.

Lemma icon_of_styles style :
  is_Some (NoteMetadata.icon_of style) ↔ style ∈ NoteMetadata.styles.
Proof.
  split.
  - unfold NoteMetadata.icon_of. intros Hicon.
    destruct style as [| |[]|n|s|]; simpl in Hicon;
      try (by destruct Hicon); try (by apply styleToIcon_keys).
    by destruct (pretty_Z_not_style (`n)); apply styleToIcon_keys.
  - unfold NoteMetadata.styles. rewrite !elem_of_cons, elem_of_nil.
    intros [-> | [-> | [-> | [-> | []]]]]; by eexists.
Qed.

(** ** Construction *)

Lemma option_item_spec option :
  match option_item option with
  | Ok it => ∃ s, ToString option = Ok s ∧ value it = PStr s ∧ text it = PStr s
  | Throw e => e = TypeError ∧ is_symbol option
  end.
Proof.
  unfold option_item.
  destruct option as [| |[]| | |]; simpl; eauto.
Qed.

Lemma mapM_option_item options :
  match mapM option_item options with
  | Ok its =>
      Forall2 (λ option it, ∃ s, ToString option = Ok s
                               ∧ value it = PStr s ∧ text it = PStr s)
              options its
  | Throw e => e = TypeError ∧ Exists (λ option, is_symbol option) options
  end.
Proof.
  induction options as [|option options IH]; simpl; [constructor|].
  pose proof (option_item_spec option) as Hitem.
  destruct (option_item option) as [it|e]; simpl.
  - destruct (mapM option_item options) as [its|e]; simpl.
    + by constructor.
    + destruct IH as [-> IH]. split; [done|]. by apply Exists_cons_tl.
  - destruct Hitem as [-> Hitem]. split; [done|]. by apply Exists_cons_hd.
Qed.

Lemma CategorySettingMetadata_Ok name label options d m :
  CategorySettingMetadata name label options d = Ok m →
  ∃ s its, m = MCategory name label (PStr s) its ∧ ToString d = Ok s
    ∧ Forall2 (λ option it, ∃ s, ToString option = Ok s
                                ∧ value it = PStr s ∧ text it = PStr s)
              options its.
Proof.
  unfold CategorySettingMetadata.
  destruct (ToString d) as [s|e]; simpl; [|done].
  pose proof (mapM_option_item options) as Hits.
  destruct (mapM option_item options) as [its|e]; simpl; [|done].
  intros [= <-]. by exists s, its.
Qed.

Lemma CategorySettingMetadata_Throw name label options d e :
  CategorySettingMetadata name label options d = Throw e →
  is_symbol d ∨ Exists (λ option, is_symbol option) options.
Proof.
  unfold CategorySettingMetadata. intros Hm.
  destruct (ToString d) as [s|e'] eqn:Hd; simpl in Hm.
  - right. pose proof (mapM_option_item options) as Hits.
    destruct (mapM option_item options) as [its|e'']; [done|].
    by destruct Hits.
  - left. by destruct d as [| |[]| | |].
Qed.

Lemma mapM_ToString_items options its :
  Forall2 (λ option it, ∃ s, ToString option = Ok s
                           ∧ value it = PStr s ∧ text it = PStr s)
          options its →
  ∃ strings,
    mapM ToString options = Ok strings
    ∧ its = (λ s, {| value := PStr s; text := PStr s |}) <$> strings.
Proof.
  induction 1 as [|o it os its (s & Hs & Hv & Ht) _ (strings & IH & ->)].
  - by exists [].
  - exists (s :: strings). simpl. rewrite Hs, IH. simpl.
    split; [done|]. destruct it. simpl in *. by subst.
Qed.

(** C10: the text and the categorical constructor coerce to strings.  For
    every choice of constructor arguments, the [defaultValue] of a text
    setting that [TextSettingMetadata] constructs is the string form of the
    default value given; a category setting that [CategorySettingMetadata]
    constructs has the string form of the default value given as its
    [defaultValue] and one item per option, in order, whose [value] and
    [text] are both the string form of that option; so all of these are
    strings.  A constructor that constructs nothing has thrown on an
    argument that is a Symbol and has no string form. *)
Theorem constructors_coerce_to_strings
    (name : option string) (label : Prim) (options : list Prim) (d : Prim) :
  match TextSettingMetadata name label d with
  | Ok m =>
      (∃ s, ToString d = Ok s ∧ m = MText name label (PStr s))
      ∧ is_string (SettingMetadata.defaultValue m)
  | Throw _ => is_symbol d
  end
  ∧ match CategorySettingMetadata name label options d with
    | Ok m =>
        (∃ s strings,
           ToString d = Ok s
           ∧ mapM ToString options = Ok strings
           ∧ m = MCategory name label (PStr s)
                   ((λ s, {| value := PStr s; text := PStr s |})
                      <$> strings))
        ∧ is_string (SettingMetadata.defaultValue m)
        ∧ Forall (λ it, is_string (value it) ∧ is_string (text it))
                 (SettingMetadata.items m)
        ∧ length (SettingMetadata.items m) = length options
    | Throw _ => is_symbol d ∨ Exists (λ option, is_symbol option) options
    end.
Proof.
  split.
  - unfold TextSettingMetadata.
    destruct d as [| |[]| | |]; simpl; try done; split; eauto.
  - destruct (CategorySettingMetadata name label options d) as [m|e] eqn:Hm.
    + apply CategorySettingMetadata_Ok in Hm as (s & its & -> & Hs & Hits).
      pose proof (mapM_ToString_items _ _ Hits) as (strings & Hstrings & ->).
      split; [by exists s, strings|].
      simpl. split; [done|]. split.
      * apply Forall_forall. intros it (t & -> & _)%list_elem_of_fmap. done.
      * symmetry. by eapply Forall2_length.
    + by eapply CategorySettingMetadata_Throw.
Qed.

(** ** [convert] *)

Lemma some_value_is_spec its data s :
  ToString data = Ok s →
  SettingMetadata.some_value_is its data
  = Ok (bool_decide (PStr s ∈ value <$> its)).
Proof.
  intros Hs. induction its as [|it its IH]; simpl.
  - done.
  - rewrite Hs. simpl. unfold strict_eq.
    destruct (decide (value it = PStr s)) as [Heq|Hne].
    + rewrite bool_decide_eq_true_2 by done.
      rewrite bool_decide_eq_true_2; [done|]. rewrite Heq. apply elem_of_cons; auto.
    + rewrite bool_decide_eq_false_2 by done. rewrite IH.
      f_equal. apply bool_decide_ext. rewrite elem_of_cons.
      split; [auto|]. intros [Heq|Hin]; [by destruct Hne|done].
Qed.

Lemma some_value_is_symbol it its data :
  is_symbol data →
  SettingMetadata.some_value_is (it :: its) data = Throw TypeError.
Proof. intros H. simpl. by rewrite ToString_throws. Qed.

(** X10: for every [CategorySettingMetadata] constructed with a non-empty
    options list and every [data] that has a string form (undefined, null,
    a boolean, a safe integer or a string), [convert( data )] returns that
    string when it equals one of the stored option values and otherwise
    returns the first option value; either way the result is a member of
    the option-value list. *)
Theorem category_convert
    (name : option string) (label : Prim) (options : list Prim) (d : Prim)
    (m : Metadata) (data : Prim) (s : string) :
  options ≠ [] →
  CategorySettingMetadata name label options d = Ok m →
  ToString data = Ok s →
  let values := value <$> SettingMetadata.items m in
  ∃ first result,
    values !! 0 = Some first
    ∧ SettingMetadata.convert m data = Ok result
    ∧ result = (if bool_decide (PStr s ∈ values) then PStr s else first)
    ∧ result ∈ values.
Proof.
  intros Hne Hm Hs values.
  apply CategorySettingMetadata_Ok in Hm as (t & its & -> & _ & Hits).
  subst values. simpl.
  destruct Hits as [|o it os its _ _]; [done|].
  exists (value it).
  rewrite (some_value_is_spec _ _ s) by done. simpl.
  case_bool_decide as Hin.
  - exists (PStr s). rewrite Hs. by simpl.
  - exists (value it). split; [done|]. split; [done|]. split; [done|].
    apply elem_of_cons; auto.
Qed.

Lemma category_convert_witness :
  let m := MCategory (Some "digits") (PStr "Digits") (PStr "1")
             [ {| value := PStr "1"; text := PStr "1" |};
               {| value := PStr "2"; text := PStr "2" |} ] in
  ∃ first result,
    (value <$> SettingMetadata.items m) !! 0 = Some first
    ∧ SettingMetadata.convert m (PNum 2) = Ok result
    ∧ result = (if bool_decide (PStr "2" ∈ value <$> SettingMetadata.items m)
                then PStr "2" else first)
    ∧ result ∈ value <$> SettingMetadata.items m.
Proof.
  apply (category_convert (Some "digits") (PStr "Digits")
           [PNum 1; PNum 2] (PNum 1) _ (PNum 2) "2").
  - done.
  - vm_compute. reflexivity.
  - vm_compute. reflexivity.
Defined.

(** C6: the code at the failing input.  On the category setting
    constructed with the options ["small"] and ["large"],
    [convert( Symbol() )] evaluates the template literal in the first call
    of the [some] callback and throws a TypeError: it returns neither the
    first option value nor any other member of the option-value list. *)
Lemma category_convert_symbol :
  ∃ m, CategorySettingMetadata (Some "size") (PStr "Size")
         [PStr "small"; PStr "large"] (PStr "small") = Ok m
       ∧ SettingMetadata.convert m (PSymbol "s") = Throw TypeError
       ∧ ¬ returns (SettingMetadata.convert m (PSymbol "s")).
Proof.
  eexists. split; [reflexivity|]. split; [reflexivity|].
  by intros [v Hv].
Qed.

(** ** Failure modes *)




(** ** Keys and lookups in the tree of settings *)

Lemma foldl_append {A} (ls : list (list A)) (acc : list A) :
  foldl (λ a b, a ++ b) acc ls = acc ++ concat ls.
Proof.
  revert acc. induction ls as [|l ls IH]; intros acc; simpl.
  - by rewrite app_nil_r.
  - by rewrite IH, app_assoc.
Qed.

Lemma settings_keys_concat s :
  SettingsMetadata.keys s
  = concat (SettingsCategoryMetadata.keys <$> categories s).
Proof. unfold SettingsMetadata.keys. by rewrite foldl_append. Qed.

Lemma named_spec m k : k ∈ named m ↔ SettingMetadata.name m = Some k ∧ k ≠ "".
Proof.
  unfold named. destruct (SettingMetadata.name m) as [s|].
  - case_decide as Hs.
    + rewrite elem_of_nil. split; [done|]. intros [[= ->] ?]. done.
    + rewrite list_elem_of_singleton. split.
      * by intros ->.
      * by intros [[= ->] _].
  - rewrite elem_of_nil. split; [done | by intros [? _]].
Qed.

Lemma category_keys_named c :
  SettingsCategoryMetadata.keys c = Some <$> (m ← contents c; named m).
Proof.
  unfold SettingsCategoryMetadata.keys.
  induction (contents c) as [|m ms IH]; [done|].
  rewrite fmap_cons, filter_cons, bind_cons, fmap_app, <- IH.
  unfold named. destruct (SettingMetadata.name m) as [s|]; simpl.
  - destruct (decide (s = "")) as [->|Hs]; simpl; [done|].
    apply String.eqb_neq in Hs. by rewrite Hs.
  - done.
Qed.

Lemma category_key_iff c k :
  Some k ∈ SettingsCategoryMetadata.keys c
  ↔ k ≠ "" ∧ ∃ m, m ∈ contents c ∧ SettingMetadata.name m = Some k.
Proof.
  rewrite category_keys_named, list_elem_of_fmap. split.
  - intros (k' & [= <-] & Hin).
    apply list_elem_of_bind in Hin as (m & Hk & Hm).
    apply named_spec in Hk as [Hname Hk]. eauto.
  - intros (Hk & m & Hm & Hname). exists k. split; [done|].
    apply list_elem_of_bind. exists m. split; [|done].
    by apply named_spec.
Qed.

Lemma elem_of_concat {A} (x : A) (ls : list (list A)) :
  x ∈ concat ls ↔ ∃ l, x ∈ l ∧ l ∈ ls.
Proof.
  induction ls as [|l ls IH]; simpl.
  - rewrite elem_of_nil. split; [done|]. intros (l & _ & Hl).
    by apply elem_of_nil in Hl.
  - rewrite elem_of_app, IH. split.
    + intros [Hx|(l' & Hx & Hl')]; [exists l|exists l'];
        rewrite elem_of_cons; auto.
    + intros (l' & Hx & Hl'). apply elem_of_cons in Hl' as [->|Hl'];
        [by left|right; eauto].
Qed.

Lemma settings_key_iff s k :
  Some k ∈ SettingsMetadata.keys s
  ↔ k ≠ "" ∧ ∃ c m, c ∈ categories s ∧ m ∈ contents c
                    ∧ SettingMetadata.name m = Some k.
Proof.
  rewrite settings_keys_concat. split.
  - intros Hin. apply elem_of_concat in Hin as (ks & Hk & Hks).
    apply list_elem_of_fmap in Hks as (c & -> & Hc).
    apply category_key_iff in Hk as (Hk & m & Hm & Hname). eauto 6.
  - intros (Hk & c & m & Hc & Hm & Hname).
    apply elem_of_concat. exists (SettingsCategoryMetadata.keys c).
    split; [apply category_key_iff; eauto|].
    by apply list_elem_of_fmap_2.
Qed.

(** C5: [SettingsMetadata.keys()] is the concatenation, in category order,
    of the categories' [keys()]; the [keys()] of a category are the names of
    its contents in stored order without the falsy ones; and together they
    are exactly the names read off the tree of categories and leaf
    settings. *)
Theorem keys_reflect_tree (s : Settings) (c : Category) :
  SettingsMetadata.keys s
  = concat (SettingsCategoryMetadata.keys <$> categories s)
  ∧ SettingsCategoryMetadata.keys c
    = filter (λ name, truthy_name name) (SettingMetadata.name <$> contents c)
  ∧ SettingsCategoryMetadata.keys c = Some <$> (m ← contents c; named m)
  ∧ SettingsMetadata.keys s = Some <$> tree_keys s.
Proof.
  split; [apply settings_keys_concat|].
  split; [done|].
  split; [apply category_keys_named|].
  rewrite settings_keys_concat. unfold tree_keys.
  induction (categories s) as [|c' cs IH]; [done|].
  rewrite fmap_cons, bind_cons, fmap_app. simpl.
  by rewrite IH, category_keys_named.
Qed.

Lemma category_metadataFor_Some c key m :
  SettingsCategoryMetadata.metadataFor c key = Some m →
  m ∈ contents c ∧ SettingMetadata.name m = key.
Proof.
  unfold SettingsCategoryMetadata.metadataFor.
  induction (contents c) as [|m' ms IH]; simpl; [done|].
  destruct (loose_eq (SettingMetadata.name m') key) eqn:Heq.
  - intros [= <-]. apply loose_eq_spec in Heq.
    split; [apply elem_of_cons; auto|done].
  - intros [Hin Hname]%IH. split; [apply elem_of_cons; auto|done].
Qed.

Lemma category_metadataFor_None c key :
  SettingsCategoryMetadata.metadataFor c key = None
  ↔ ∀ m, m ∈ contents c → SettingMetadata.name m ≠ key.
Proof.
  unfold SettingsCategoryMetadata.metadataFor.
  induction (contents c) as [|m' ms IH]; simpl.
  - split; [|done]. intros _ m Hm. by apply elem_of_nil in Hm.
  - destruct (loose_eq (SettingMetadata.name m') key) eqn:Heq.
    + apply loose_eq_spec in Heq. split; [done|]. intros Hall.
      destruct (Hall m'); [apply elem_of_cons; auto|done].
    + rewrite IH. split.
      * intros Hall m [->|Hm]%elem_of_cons; [|by apply Hall].
        intros Hname. apply loose_eq_spec in Hname. congruence.
      * intros Hall m Hm. apply Hall, elem_of_cons. auto.
Qed.

Lemma metadataFor_Some s key m :
  SettingsMetadata.metadataFor s key = Some m →
  SettingMetadata.name m = key
  ∧ ∃ c, c ∈ categories s ∧ m ∈ contents c.
Proof.
  unfold SettingsMetadata.metadataFor.
  induction (categories s) as [|c cs IH]; simpl; [done|].
  destruct (SettingsCategoryMetadata.metadataFor c key) as [m'|] eqn:Hc.
  - intros [= <-]. apply category_metadataFor_Some in Hc as [Hin Hname].
    split; [done|]. exists c. split; [apply elem_of_cons; auto|done].
  - intros (Hname & c' & Hc' & Hm)%IH. split; [done|].
    exists c'. split; [apply elem_of_cons; auto|done].
Qed.

Lemma metadataFor_None s key :
  SettingsMetadata.metadataFor s key = None
  ↔ ∀ c m, c ∈ categories s → m ∈ contents c →
           SettingMetadata.name m ≠ key.
Proof.
  unfold SettingsMetadata.metadataFor.
  induction (categories s) as [|c cs IH]; simpl.
  - split; [|done]. intros _ c m Hc. by apply elem_of_nil in Hc.
  - destruct (SettingsCategoryMetadata.metadataFor c key) as [m'|] eqn:Hc.
    + apply category_metadataFor_Some in Hc as [Hin Hname].
      split; [done|]. intros Hall.
      destruct (Hall c m'); [apply elem_of_cons; auto|done..].
    + rewrite IH. split.
      * intros Hall c' m [->|Hc']%elem_of_cons Hm; [|by eapply Hall].
        by eapply category_metadataFor_None in Hc.
      * intros Hall c' m Hc' Hm. eapply Hall; [|done].
        apply elem_of_cons. auto.
Qed.

Lemma named_not_note m k :
  SettingMetadata.name m = Some k → ¬ SettingMetadata.is_note m.
Proof. destruct m; simpl; intros Hname Hnote; done. Qed.

(** C8: for every non-empty string [k], [metadataFor( k )] returns a
    metadata object exactly when [k] occurs in [keys()].  What it returns
    is an entry of the tree whose name is [k], so never a note, which has
    no name; and for a [k] that is not among the keys it returns
    undefined. *)
Theorem metadataFor_iff_key (s : Settings) (k : string) :
  k ≠ "" →
  (is_Some (SettingsMetadata.metadataFor s (Some k))
   ↔ Some k ∈ SettingsMetadata.keys s)
  ∧ (∀ m, SettingsMetadata.metadataFor s (Some k) = Some m →
       SettingMetadata.name m = Some k ∧ ¬ SettingMetadata.is_note m
       ∧ ∃ c, c ∈ categories s ∧ m ∈ contents c)
  ∧ (Some k ∉ SettingsMetadata.keys s →
       SettingsMetadata.metadataFor s (Some k) = None).
Proof.
  intros Hk.
  assert (is_Some (SettingsMetadata.metadataFor s (Some k))
          ↔ Some k ∈ SettingsMetadata.keys s) as Hiff.
  { rewrite settings_key_iff. split.
    - intros [m (Hname & c & Hc & Hm)%metadataFor_Some]. eauto 6.
    - intros (_ & c & m & Hc & Hm & Hname).
      destruct (SettingsMetadata.metadataFor s (Some k)) as [m'|] eqn:Hfor;
        [by eexists|].
      rewrite metadataFor_None in Hfor. by destruct (Hfor c m). }
  split; [done|]. split.
  - intros m Hm. pose proof Hm as (Hname & Hin)%metadataFor_Some.
    split; [done|]. split; [by eapply named_not_note|done].
  - intros Hnot.
    destruct (SettingsMetadata.metadataFor s (Some k)) as [m|] eqn:Hfor;
      [|done].
    destruct Hnot. apply Hiff. by eexists.
Qed.

Lemma metadataFor_iff_key_witness :
  let s := {| categories :=
    [ {| category_name := PStr "Editing";
         contents := [ MHtmlPanel (PStr "<p>Shortcuts</p>");
                       MBool (Some "dollar sign shortcut")
                             (PStr "Use $ for math") (PBool true) ] |} ] |} in
  is_Some (SettingsMetadata.metadataFor s (Some "dollar sign shortcut"))
  ↔ Some "dollar sign shortcut" ∈ SettingsMetadata.keys s.
Proof.
  intros s.
  exact (proj1 (metadataFor_iff_key s "dollar sign shortcut"
                  ltac:(discriminate))).
Defined.

(** A lookup with the undefined key is outside of C8: it compares
    [undefined == undefined] and returns the first entry without a name,
    here a note. *)
Example metadataFor_undefined :
  SettingsMetadata.metadataFor
    {| categories :=
      [ {| category_name := PStr "Editing";
           contents := [ MHtmlPanel (PStr "<p>Shortcuts</p>");
                         MBool (Some "dollar sign shortcut")
                               (PStr "Use $ for math") (PBool true) ] |} ] |}
    None
  = Some (MHtmlPanel (PStr "<p>Shortcuts</p>")).
Proof. reflexivity. Qed.

(** ** Default values *)

Lemma set_lookup_eq k v o :
  k ≠ "__proto__" → PlainObject.own (PlainObject.set k v o) !! k = Some v.
Proof.
  intros Hk. unfold PlainObject.set.
  rewrite (bool_decide_eq_false_2 _ Hk). simpl. apply lookup_insert_eq.
Qed.

Lemma set_lookup_ne k k' v o :
  k' ≠ k →
  PlainObject.own (PlainObject.set k' v o) !! k = PlainObject.own o !! k.
Proof.
  intros Hne. unfold PlainObject.set.
  destruct (_ && _); [by destruct (bool_decide _)|].
  simpl. by apply lookup_insert_ne.
Qed.

Lemma record_default_other result m k :
  SettingMetadata.name m ≠ Some k →
  PlainObject.own (SettingsCategoryMetadata.record_default result m) !! k
  = PlainObject.own result !! k.
Proof.
  intros Hname. unfold SettingsCategoryMetadata.record_default.
  destruct (SettingMetadata.name m) as [k'|]; [|done].
  destruct (truthy_name (Some k')); [|done].
  apply set_lookup_ne. congruence.
Qed.

Lemma record_default_named result m k :
  SettingMetadata.name m = Some k → k ≠ "" → k ≠ "__proto__" →
  PlainObject.own (SettingsCategoryMetadata.record_default result m) !! k
  = Some (SettingMetadata.defaultValue m).
Proof.
  intros Hname Hk Hproto. unfold SettingsCategoryMetadata.record_default.
  rewrite Hname.
  assert (truthy_name (Some k) = true) as ->.
  { apply truthy_name_spec. eauto. }
  by apply set_lookup_eq.
Qed.

Lemma foldl_record_default_other ms result k :
  (∀ m, m ∈ ms → SettingMetadata.name m ≠ Some k) →
  PlainObject.own (foldl SettingsCategoryMetadata.record_default result ms)
    !! k
  = PlainObject.own result !! k.
Proof.
  revert result. induction ms as [|m ms IH]; intros result Hall; [done|].
  simpl. rewrite IH.
  - apply record_default_other, Hall, elem_of_cons. auto.
  - intros m' Hm'. apply Hall, elem_of_cons. auto.
Qed.

Lemma foldl_record_default_named ms result k m :
  k ≠ "" → k ≠ "__proto__" →
  NoDup (filter (λ name, truthy_name name) (SettingMetadata.name <$> ms)) →
  m ∈ ms → SettingMetadata.name m = Some k →
  PlainObject.own (foldl SettingsCategoryMetadata.record_default result ms)
    !! k
  = Some (SettingMetadata.defaultValue m).
Proof.
  intros Hk Hproto. revert result.
  induction ms as [|m' ms IH]; intros result Hdup Hm Hname.
  { by apply elem_of_nil in Hm. }
  rewrite fmap_cons, filter_cons in Hdup. simpl.
  destruct (decide (SettingMetadata.name m' = Some k)) as [Hm'|Hm'].
  - rewrite Hm' in Hdup.
    assert (truthy_name (Some k) = true) as Htruthy.
    { apply truthy_name_spec. eauto. }
    rewrite decide_True in Hdup by by rewrite Htruthy.
    apply NoDup_cons in Hdup as [Hnotin _].
    apply elem_of_cons in Hm as [->|Hm].
    + rewrite foldl_record_default_other.
      * by apply record_default_named.
      * intros m'' Hm'' Hname''. apply Hnotin, list_elem_of_filter.
        split; [by rewrite Htruthy|].
        rewrite <- Hname''. by apply list_elem_of_fmap_2.
    + destruct Hnotin. apply list_elem_of_filter.
      split; [by rewrite Htruthy|].
      rewrite <- Hname. by apply list_elem_of_fmap_2.
  - apply elem_of_cons in Hm as [->|Hm]; [done|].
    apply IH; [|done..].
    destruct (decide _) in Hdup; [by apply NoDup_cons in Hdup as [_ ?]|done].
Qed.

Lemma category_defaultSettings_other c k :
  (∀ m, m ∈ contents c → SettingMetadata.name m ≠ Some k) →
  PlainObject.own (SettingsCategoryMetadata.defaultSettings c) !! k = None.
Proof.
  intros Hall. unfold SettingsCategoryMetadata.defaultSettings.
  by rewrite foldl_record_default_other.
Qed.

Lemma spread_lookup a b k :
  PlainObject.own (PlainObject.spread a b) !! k
  = match PlainObject.own b !! k with
    | Some v => Some v
    | None => PlainObject.own a !! k
    end.
Proof.
  unfold PlainObject.spread. simpl. rewrite lookup_union.
  destruct (PlainObject.own b !! k), (PlainObject.own a !! k); done.
Qed.

Lemma foldl_spread_other cs result k :
  (∀ c m, c ∈ cs → m ∈ contents c → SettingMetadata.name m ≠ Some k) →
  PlainObject.own
    (foldl PlainObject.spread result
           (SettingsCategoryMetadata.defaultSettings <$> cs)) !! k
  = PlainObject.own result !! k.
Proof.
  revert result. induction cs as [|c cs IH]; intros result Hall; [done|].
  rewrite fmap_cons. simpl. rewrite IH.
  - rewrite spread_lookup, category_defaultSettings_other; [done|].
    intros m Hm. eapply Hall; [|done]. apply elem_of_cons. auto.
  - intros c' m Hc' Hm. eapply Hall; [|done]. apply elem_of_cons. auto.
Qed.

Lemma foldl_spread_named cs result k c m :
  k ≠ "" → k ≠ "__proto__" →
  NoDup (concat (SettingsCategoryMetadata.keys <$> cs)) →
  c ∈ cs → m ∈ contents c → SettingMetadata.name m = Some k →
  PlainObject.own
    (foldl PlainObject.spread result
           (SettingsCategoryMetadata.defaultSettings <$> cs)) !! k
  = Some (SettingMetadata.defaultValue m).
Proof.
  intros Hk Hproto. revert result.
  induction cs as [|c' cs IH]; intros result Hdup Hc Hm Hname.
  { by apply elem_of_nil in Hc. }
  rewrite fmap_cons in Hdup. simpl in Hdup.
  apply NoDup_app in Hdup as (Hdup' & Hdisjoint & Hdup).
  rewrite fmap_cons. simpl.
  destruct (decide (Some k ∈ SettingsCategoryMetadata.keys c')) as [Hin|Hnotin].
  - assert (∀ c'' m'', c'' ∈ cs → m'' ∈ contents c'' →
                       SettingMetadata.name m'' ≠ Some k) as Hrest.
    { intros c'' m'' Hc'' Hm'' Hname''. apply (Hdisjoint _ Hin).
      apply elem_of_concat. exists (SettingsCategoryMetadata.keys c'').
      split; [apply category_key_iff; eauto|by apply list_elem_of_fmap_2]. }
    apply elem_of_cons in Hc as [->|Hc]; [|by destruct (Hrest c m)].
    rewrite foldl_spread_other by done.
    rewrite spread_lookup.
    unfold SettingsCategoryMetadata.defaultSettings.
    by rewrite (foldl_record_default_named _ _ k m).
  - apply elem_of_cons in Hc as [->|Hc]; [|by apply IH].
    destruct Hnotin. apply category_key_iff. eauto.
Qed.

(** X5: for every [SettingsMetadata] whose keys are pairwise distinct,
    and every name [k] in [keys()] other than ["__proto__"],
    [metadataFor( k )] is a metadata object and [defaultSettings()[k]] is
    its [defaultValue]. *)
Theorem defaultSettings_agree (s : Settings) (k : string) :
  NoDup (SettingsMetadata.keys s) →
  Some k ∈ SettingsMetadata.keys s →
  k ≠ "__proto__" →
  ∃ m, SettingsMetadata.metadataFor s (Some k) = Some m
       ∧ PlainObject.get (SettingsMetadata.defaultSettings s) k
         = PlainObject.Primitive (SettingMetadata.defaultValue m).
Proof.
  intros Hdup Hin Hproto.
  pose proof Hin as (Hk & c & m & Hc & Hm & Hname)%settings_key_iff.
  destruct (SettingsMetadata.metadataFor s (Some k)) as [m'|] eqn:Hfor.
  - exists m'. split; [done|].
    apply metadataFor_Some in Hfor as (Hname' & c' & Hc' & Hm').
    unfold PlainObject.get, SettingsMetadata.defaultSettings.
    rewrite settings_keys_concat in Hdup.
    by rewrite (foldl_spread_named _ _ k c' m').
  - rewrite metadataFor_None in Hfor. by destruct (Hfor c m).
Qed.

Lemma defaultSettings_agree_witness :
  let s := {| categories :=
    [ {| category_name := PStr "Editing";
         contents := [ MHtmlPanel (PStr "<p>Shortcuts</p>");
                       MBool (Some "dollar sign shortcut")
                             (PStr "Use $ for math") (PBool true) ] |};
      {| category_name := PStr "Display";
         contents := [ MColor (Some "highlight") (PStr "Highlight")
                              (PStr "#ffff00") ] |} ] |} in
  ∃ m, SettingsMetadata.metadataFor s (Some "highlight") = Some m
       ∧ PlainObject.get (SettingsMetadata.defaultSettings s) "highlight"
         = PlainObject.Primitive (SettingMetadata.defaultValue m).
Proof.
  intros s. apply (defaultSettings_agree s "highlight").
  - by apply (bool_decide_unpack _).
  - by apply (bool_decide_unpack _).
  - discriminate.
Defined.

(** C2: the code at the failing input, a collection whose only setting is
    named ["__proto__"].  The name is a non-empty string, [keys()] lists it
    and [metadataFor] finds the setting with default value [true], but the
    assignment [result["__proto__"] = true] in [defaultSettings] is
    intercepted by the accessor inherited from [Object.prototype] and
    creates no property, so [defaultSettings()["__proto__"]] is the
    prototype object and not [true]. *)
Lemma defaultSettings_proto :
  let s := {| categories :=
    [ {| category_name := PStr "General";
         contents := [ MBool (Some "__proto__") (PStr "Prototype")
                             (PBool true) ] |} ] |} in
  SettingsMetadata.keys s = [Some "__proto__"]
  ∧ SettingsMetadata.metadataFor s (Some "__proto__")
    = Some (MBool (Some "__proto__") (PStr "Prototype") (PBool true))
  ∧ PlainObject.get (SettingsMetadata.defaultSettings s) "__proto__"
    = PlainObject.Builtin "__proto__"
  ∧ PlainObject.get (SettingsMetadata.defaultSettings s) "__proto__"
    ≠ PlainObject.Primitive (PBool true).
Proof.
  intros s. split; [reflexivity|]. split; [reflexivity|].
  assert (PlainObject.get (SettingsMetadata.defaultSettings s) "__proto__"
          = PlainObject.Builtin "__proto__") as Hget
    by (vm_compute; reflexivity).
  split; [done|]. by rewrite Hget.
Qed.

(** ** [control()] and object identity *)

Section control.
Context {V : Type}.
Implicit Types (h : gmap positive (gmap string V)) (o : gmap string V).

Lemma copy_allocates this h o :
  h !! this = Some o →
  Heap.copyWithoutPrototype this h
  = Some (fresh (dom h), <[fresh (dom h) := o]> h).
Proof. intros Ho. unfold Heap.copyWithoutPrototype. by rewrite Ho. Qed.

Lemma fresh_unallocated h : h !! fresh (dom h) = None.
Proof. apply not_elem_of_dom, is_fresh. Qed.

(** C9: [control()], called on a metadata record that lives at [this] with
    own properties [o], returns an object at a location [result] that was
    not allocated before; it carries every own property of the record
    except [defaultValue]; every object that existed before the call, the
    record among them, is unchanged; and assigning or deleting a property
    of the returned object afterwards leaves the record unchanged. *)
Theorem control_returns_fresh_copy this h o :
  h !! this = Some o →
  ∃ result h',
    Heap.control this h = Some (result, h')
    ∧ h !! result = None
    ∧ h' !! result = Some (delete "defaultValue" o)
    ∧ (∀ k, k ≠ "defaultValue" →
         delete "defaultValue" o !! k = o !! k)
    ∧ delete "defaultValue" o !! "defaultValue" = None
    ∧ (∀ l, l ≠ result → h' !! l = h !! l)
    ∧ h' !! this = Some o
    ∧ (∀ k v, Heap.set_property result k v h' !! this = Some o)
    ∧ (∀ k, Heap.delete_property result k h' !! this = Some o).
Proof.
  intros Ho. pose proof (fresh_unallocated h) as Hfresh.
  assert (this ≠ fresh (dom h)) as Hne by congruence.
  exists (fresh (dom h)). eexists. split.
  { unfold Heap.control. rewrite (copy_allocates _ _ o) by done.
    reflexivity. }
  unfold Heap.delete_property, Heap.set_property.
  split; [done|]. split.
  { by rewrite lookup_alter_eq, lookup_insert_eq. }
  split; [intros k Hk; by apply lookup_delete_ne|].
  split; [apply lookup_delete_eq|].
  split.
  { intros l Hl. by rewrite lookup_alter_ne, lookup_insert_ne. }
  assert (alter (delete "defaultValue") (fresh (dom h))
            (<[fresh (dom h) := o]> h) !! this = Some o) as Hthis.
  { by rewrite lookup_alter_ne, lookup_insert_ne. }
  split; [done|]. split.
  - intros k v. by rewrite lookup_alter_ne.
  - intros k. by rewrite lookup_alter_ne.
Qed.

End control.

Lemma control_returns_fresh_copy_witness :
  let o : gmap string Json :=
    list_to_map (SettingMetadata.own_properties
                   (MBool (Some "dollar sign shortcut")
                          (PStr "Use $ for math") (PBool true))) in
  let h : gmap positive (gmap string Json) := {[ 1%positive := o ]} in
  ∃ result h',
    Heap.control 1%positive h = Some (result, h')
    ∧ h !! result = None
    ∧ h' !! result = Some (delete "defaultValue" o)
    ∧ (∀ k, k ≠ "defaultValue" →
         delete "defaultValue" o !! k = o !! k)
    ∧ delete "defaultValue" o !! "defaultValue" = None
    ∧ (∀ l, l ≠ result → h' !! l = h !! l)
    ∧ h' !! 1%positive = Some o
    ∧ (∀ k v, Heap.set_property result k v h' !! 1%positive = Some o)
    ∧ (∀ k, Heap.delete_property result k h' !! 1%positive = Some o).
Proof.
  intros o h. apply (control_returns_fresh_copy 1%positive h o).
  reflexivity.
Defined.

(** The copy is shallow.  Here the record at location 1 refers to its
    [items] array at location 2; the object that [control()] returns refers
    to the same array, so a write to that array, unlike a write to the
    returned object, is seen through the record as well. *)
Example control_shares_items :
  let record : gmap string (Prim + positive) :=
    {[ "name" := inl (PStr "size"); "defaultValue" := inl (PStr "small");
       "type" := inl (PStr "selectbox"); "items" := inr 2%positive ]} in
  let h : gmap positive (gmap string (Prim + positive)) :=
    {[ 1%positive := record; 2%positive := {[ "length" := inl (PNum 0) ]} ]} in
  ∃ result h',
    Heap.control 1%positive h = Some (result, h')
    ∧ result ≠ 1%positive ∧ result ≠ 2%positive
    ∧ (h' !! result) ≫= (λ o, o !! "items") = Some (inr 2%positive)
    ∧ (h' !! 1%positive) ≫= (λ o, o !! "items") = Some (inr 2%positive)
    ∧ Heap.set_property 2%positive "length" (inl (PNum 1)) h' !! 2%positive
      = Some {[ "length" := inl (PNum 1) ]}.
Proof.
  intros record h.
  assert (h !! 1%positive = Some record) as Hrecord by reflexivity.
  pose proof (fresh_unallocated h) as Hfresh.
  exists (fresh (dom h)). eexists. split.
  { unfold Heap.control. rewrite (copy_allocates _ _ record) by done.
    reflexivity. }
  assert (fresh (dom h) ≠ 1%positive) as Hne1.
  { intros Heq. rewrite Heq in Hfresh. by rewrite Hrecord in Hfresh. }
  assert (fresh (dom h) ≠ 2%positive) as Hne2.
  { intros Heq. rewrite Heq in Hfresh. done. }
  split; [done|]. split; [done|].
  unfold Heap.delete_property, Heap.set_property. split.
  { rewrite lookup_alter_eq, lookup_insert_eq. simpl.
    by rewrite lookup_delete_ne. }
  split.
  { rewrite lookup_alter_ne, lookup_insert_ne by done. by rewrite Hrecord. }
  rewrite lookup_alter_eq, lookup_alter_ne, lookup_insert_ne by done.
  reflexivity.
Qed.

Lemma list_to_map_delete_property {A} (k : string) (l : list (string * A)) :
  (list_to_map (filter (λ p, p.1 ≠ k) l) : gmap string A)
  = delete k (list_to_map l).
Proof.
  induction l as [|[k' v] l IH]; simpl.
  - by rewrite delete_empty.
  - rewrite filter_cons. simpl. case_decide as Hk.
    + simpl. rewrite IH. by rewrite delete_insert_ne by congruence.
    + subst k'. by rewrite IH, delete_insert_eq.
Qed.

(** The value that [control()] returns holds the properties of the object
    that it allocates. *)
Lemma control_value_properties m :
  ∃ properties,
    SettingMetadata.control m = JObj properties
    ∧ (list_to_map properties : gmap string Json)
      = delete "defaultValue"
               (list_to_map (SettingMetadata.own_properties m)).
Proof.
  eexists. split; [reflexivity|].
  apply list_to_map_delete_property.
Qed.

(** ** The editing dialog *)

Module ExpositoryMathProperties.
Import ExpositoryMath.

Lemma empty_spec w :
  empty w = (String.eqb (trim (latex_input w)) "", w).
Proof. reflexivity. Qed.

(** C3: the [onChange] handler keeps the two widgets synchronized.  When
    the component named ['latex'] changes, the MathLive editor is set to the
    current value of the latex field; when the component named ['preview']
    changes, the text input is set to the value of the MathLive editor; in
    every other respect the two values stay as they are.  After any change
    the OK button is enabled exactly when the trimmed value of the latex
    field is not empty; no other button and nothing of the atom changes. *)
Theorem onChange_synchronizes (w : World) (name : option string) :
  let after := (onChange name w).2 in
  math_editor after
  = (if decide (name = Some "latex") then latex_input w else math_editor w)
  ∧ latex_input after
    = (if decide (name = Some "preview") then math_editor w
       else latex_input w)
  ∧ enabled after !! "OK"
    = Some (negb (String.eqb (trim (latex_input after)) ""))
  ∧ enabled after
    = <["OK" := negb (String.eqb (trim (latex_input after)) "")]> (enabled w)
  ∧ atom after = atom w.
Proof.
  unfold onChange, loose_eq. cbn zeta.
  destruct (decide (name = Some "latex")) as [->|Hlatex].
  - repeat split. apply lookup_insert_eq.
  - rewrite (bool_decide_eq_false_2 _ Hlatex).
    destruct (decide (name = Some "preview")) as [->|Hpreview].
    + repeat split. apply lookup_insert_eq.
    + rewrite (bool_decide_eq_false_2 _ Hpreview).
      repeat split. apply lookup_insert_eq.
Qed.

Lemma perform_synchronizes a w :
  let w' := (perform a w).2 in
  latex_input w' = math_editor w'
  ∧ enabled w' !! "OK"
    = Some (negb (String.eqb (trim (latex_input w')) ""))
  ∧ atom w' = atom w.
Proof.
  destruct a as [v|v]; simpl; (split; [done|]);
    (split; [apply lookup_insert_eq|done]).
Qed.

(** From the moment [edit()] has set the dialog up and through everything
    the user does in it, the two widgets show the same value, the OK button
    is enabled exactly when that value is not blank, and the atom is
    untouched. *)
Lemma dialog_stays_synchronized a latex script :
  let w := (perform_all script (open_dialog a latex)).2 in
  latex_input w = math_editor w
  ∧ enabled w !! "OK" = Some (negb (String.eqb (trim (latex_input w)) ""))
  ∧ atom w = a.
Proof.
  assert (∀ w0,
    latex_input w0 = math_editor w0
    ∧ enabled w0 !! "OK"
      = Some (negb (String.eqb (trim (latex_input w0)) ""))
    ∧ atom w0 = a →
    let w := (perform_all script w0).2 in
    latex_input w = math_editor w
    ∧ enabled w !! "OK" = Some (negb (String.eqb (trim (latex_input w)) ""))
    ∧ atom w = a) as Hinv.
  { induction script as [|action script IH]; intros w0 Hw0; [done|].
    cbn [perform_all]. unfold mbind, UI_bind.
    pose proof (perform_synchronizes action w0) as Hstep.
    destruct (perform action w0) as [[] w1]. simpl in Hstep.
    apply IH. destruct Hstep as (? & ? & ->). by destruct Hw0 as (_ & _ & ->). }
  apply Hinv. unfold open_dialog. simpl.
  split; [done|]. split; [apply lookup_singleton_eq|done].
Qed.

(** ** Closing the dialog *)

Lemma onShown_spec represent userHitOK w :
  onShown represent userHitOK w
  = if userHitOK && negb (String.eqb (trim (latex_input w)) "")
    then (true,
          {| atom := update represent
                       (setMetadata "latex" (latex_input w) (atom w));
             latex_input := latex_input w; math_editor := math_editor w;
             enabled := enabled w |})
    else (false, w).
Proof.
  unfold onShown. destruct userHitOK; [|done].
  unfold mbind, UI_bind. rewrite empty_spec. simpl.
  by destruct (String.eqb (trim (latex_input w)) "").
Qed.

Lemma update_spec represent a :
  update represent a
  = {| metadata := metadata a;
       children := <["body" := represent (metadata a !! "latex") "latex"]>
                     (children a) |}.
Proof. reflexivity. Qed.

(** C4: [edit()], on an atom whose ['latex'] metadata is [latex], resolves
    to true exactly when the user confirms with OK and the value [v] of the
    latex field is not blank.  It then sets the ['latex'] metadata to [v]
    and, by [update()], fills the body with the representation of [v];
    otherwise it resolves to false and the atom is as it was, its ['latex']
    metadata included. *)
Theorem edit_resolves
    (represent : option string → string → string) (a : Atom)
    (latex : string) (script : list UserAction) (userHitOK : bool) :
  metadata a !! "latex" = Some latex →
  let v := latex_input (perform_all script (open_dialog a latex)).2 in
  let confirmed := userHitOK && negb (String.eqb (trim v) "") in
  ∃ a',
    edit represent a script userHitOK = Some (confirmed, a')
    ∧ if confirmed
      then a' = update represent (setMetadata "latex" v a)
           ∧ metadata a' !! "latex" = Some v
           ∧ children a' !! "body" = Some (represent (Some v) "latex")
      else a' = a ∧ metadata a' !! "latex" = Some latex.
Proof.
  intros Hlatex v confirmed. unfold edit. rewrite Hlatex. simpl.
  pose proof (dialog_stays_synchronized a latex script) as (_ & _ & Hatom).
  subst confirmed v.
  destruct (perform_all script (open_dialog a latex)) as [[] w].
  simpl in *. rewrite onShown_spec.
  destruct (userHitOK && negb (String.eqb (trim (latex_input w)) "")).
  - eexists. split; [reflexivity|]. simpl. rewrite Hatom.
    split; [done|]. split; [apply lookup_insert_eq|].
    rewrite lookup_insert_eq. unfold getMetadata, setMetadata. simpl.
    by rewrite lookup_insert_eq.
  - exists a. by rewrite Hatom.
Qed.

Lemma edit_resolves_witness :
  let represent : option string → string → string :=
    λ latex notation, default "" latex in
  let a := {| metadata := {[ "latex" := "x^2" ]}; children := ∅ |} in
  let script := [TypeLatex "x^3"; EditMath "  "; EditMath "y"] in
  ∃ a',
    edit represent a script true = Some (true, a')
    ∧ a' = update represent (setMetadata "latex" "y" a)
    ∧ metadata a' !! "latex" = Some "y"
    ∧ children a' !! "body" = Some "y".
Proof.
  intros represent a script.
  exact (edit_resolves represent a "x^2" script true eq_refl).
Defined.

(** ** [install] *)

Lemma fire_editor_on event callback e :
  body_listeners (fire event (editor_on event callback e))
  = callback (body_listeners (fire event e)).
Proof.
  unfold fire, editor_on. simpl. rewrite foldl_app. simpl.
  by rewrite String.eqb_refl.
Qed.


(** The atom that [insertExpositoryMath] creates and renders: type
    ['expositorymath'], empty latex, and a body that represents it. *)
Lemma insertExpositoryMath_spec represent :
  insertExpositoryMath represent
  = [EditThenInsert
       {| metadata := {[ "type" := "expositorymath"; "latex" := "" ]};
          children := {[ "body" := represent (Some "") "latex" ]} |}].
Proof.
  unfold insertExpositoryMath, newInline. rewrite update_spec. simpl.
  rewrite lookup_insert_ne by done. rewrite lookup_insert_eq.
  by rewrite insert_empty.
Qed.

Lemma press_snoc e e' settings key listener :
  body_listeners e' = body_listeners e ++ [("keypress", listener)] →
  press e' settings key = press e settings key ++ listener settings key.
Proof.
  intros He'. unfold press. rewrite He', bind_app. simpl.
  by rewrite app_nil_r.
Qed.

(** C7: [install( editor )] registers the menu item ['expositorymath'],
    whose action inserts expository math, and a callback for the editor's
    ['init'] event that puts a keypress listener on the body of the
    document.  Once the editor has fired ['init'], what a key press does
    beyond the listeners that were there already is this: for the key [$]
    with a truthy ['dollar sign shortcut'] setting, the event is
    intercepted, a new inline atom of type ['expositorymath'] with empty
    latex is created and rendered, and its edit-then-insert flow begins; for
    any other key or setting, nothing.  In particular with the setting
    [true] the key [$] starts the flow and with the setting [false] it is
    not intercepted and no atom is created. *)
Theorem install_dollar_shortcut
    (represent : option string → string → string) (editor : Editor)
    (settings : gmap string Prim) (key : string) (shortcut : bool) :
  let installed := install represent editor in
  let new_atom :=
    {| metadata := {[ "type" := "expositorymath"; "latex" := "" ]};
       children := {[ "body" := represent (Some "") "latex" ]} |} in
  let with_shortcut := <["dollar sign shortcut" := PBool shortcut]> settings in
  registry installed !! "expositorymath"
  = Some {| item_text := "Expository math";
            item_icon := "insert-character";
            item_tooltip := "Insert expository math";
            item_shortcut := "Meta+Alt+E";
            onAction := [EditThenInsert new_atom] |}
  ∧ callbacks installed
    = callbacks editor
      ++ [("init", addEventListener "keypress" (on_keypress represent))]
  ∧ press (fire "init" installed) settings key
    = press (fire "init" editor) settings key
      ++ (if String.eqb key "$"
             && ToBoolean (appSettings_get settings "dollar sign shortcut")
          then [PreventDefault; StopPropagation; EditThenInsert new_atom]
          else [])
  ∧ press (fire "init" installed) with_shortcut "$"
    = press (fire "init" editor) with_shortcut "$"
      ++ (if shortcut
          then [PreventDefault; StopPropagation; EditThenInsert new_atom]
          else []).
Proof.
  intros installed new_atom with_shortcut.
  assert (∀ settings' key',
    press (fire "init" installed) settings' key'
    = press (fire "init" editor) settings' key'
      ++ on_keypress represent settings' key') as Hpress.
  { intros settings' key'. apply press_snoc.
    subst installed. unfold install. by rewrite fire_editor_on. }
  split.
  { subst installed. unfold install. simpl.
    rewrite lookup_insert_eq. by rewrite insertExpositoryMath_spec. }
  split; [done|].
  rewrite !Hpress. unfold on_keypress.
  rewrite insertExpositoryMath_spec. split; [done|].
  f_equal. simpl. unfold appSettings_get, with_shortcut.
  rewrite lookup_insert_eq. by destruct shortcut.
Qed.

(** Until the editor fires ['init'] the listener is not on the body, and
    a key press does what it did before [install]. *)
Lemma press_before_init represent editor settings key :
  press (install represent editor) settings key = press editor settings key.
Proof. reflexivity. Qed.
End ExpositoryMathProperties.

(** * Further properties *)

(** ** Lookups in document order *)

Lemma find_app {A} (f : A → bool) (l1 l2 : list A) :
  List.find f (l1 ++ l2)
  = match List.find f l1 with
    | Some x => Some x
    | None => List.find f l2
    end.
Proof.
  induction l1 as [|x l1 IH]; simpl; [done|]. by destruct (f x).
Qed.

Lemma find_Some_elem {A} (f : A → bool) (l : list A) x :
  List.find f l = Some x → x ∈ l ∧ f x = true.
Proof.
  induction l as [|y l IH]; simpl; [done|].
  destruct (f y) eqn:Hy.
  - intros [= <-]. split; [apply elem_of_cons; auto|done].
  - intros [Hin Hx]%IH. split; [apply elem_of_cons; auto|done].
Qed.

Lemma find_None_elem {A} (f : A → bool) (l : list A) :
  List.find f l = None ↔ ∀ x, x ∈ l → f x = false.
Proof.
  induction l as [|y l IH]; simpl.
  - split; [|done]. intros _ x Hx. by apply elem_of_nil in Hx.
  - destruct (f y) eqn:Hy.
    + split; [done|]. intros Hall.
      rewrite Hall in Hy; [done|apply elem_of_cons; auto].
    + rewrite IH. split.
      * intros Hall x [->|Hx]%elem_of_cons; auto.
      * intros Hall x Hx. apply Hall, elem_of_cons. auto.
Qed.

(** X1: [SettingsMetadata.metadataFor( key )] is a search of the whole
    collection in document order: it returns the first entry, over all
    categories and their contents, whose name equals the key, and undefined
    when there is none.  This holds for the undefined key as well. *)
Theorem metadataFor_first_match (s : Settings) (key : option string) :
  SettingsMetadata.metadataFor s key
  = List.find (λ m, loose_eq (SettingMetadata.name m) key) (entries s).
Proof.
  unfold SettingsMetadata.metadataFor, entries.
  induction (categories s) as [|c cs IH]; [done|].
  rewrite bind_cons, find_app. simpl. rewrite IH.
  unfold SettingsCategoryMetadata.metadataFor.
  by destruct (List.find _ (contents c)).
Qed.

(** ** What [defaultSettings()] holds *)

Lemma record_default_lookup result m k :
  k ≠ "" → k ≠ "__proto__" →
  PlainObject.own (SettingsCategoryMetadata.record_default result m) !! k
  = if loose_eq (SettingMetadata.name m) (Some k)
    then Some (SettingMetadata.defaultValue m)
    else PlainObject.own result !! k.
Proof.
  intros Hk Hproto. unfold loose_eq. case_bool_decide as Hname.
  - by apply record_default_named.
  - by apply record_default_other.
Qed.

Lemma foldl_record_default_lookup ms result k :
  k ≠ "" → k ≠ "__proto__" →
  PlainObject.own (foldl SettingsCategoryMetadata.record_default result ms)
    !! k
  = match List.find (λ m, loose_eq (SettingMetadata.name m) (Some k))
                    (reverse ms) with
    | Some m => Some (SettingMetadata.defaultValue m)
    | None => PlainObject.own result !! k
    end.
Proof.
  intros Hk Hproto. revert result.
  induction ms as [|m ms IH]; intros result; [done|].
  simpl. rewrite IH, reverse_cons, find_app. simpl.
  destruct (List.find _ (reverse ms)); [done|].
  rewrite record_default_lookup by done.
  by destruct (loose_eq (SettingMetadata.name m) (Some k)).
Qed.

Lemma foldl_spread_lookup cs result k :
  k ≠ "" → k ≠ "__proto__" →
  PlainObject.own
    (foldl PlainObject.spread result
           (SettingsCategoryMetadata.defaultSettings <$> cs)) !! k
  = match List.find (λ m, loose_eq (SettingMetadata.name m) (Some k))
                    (reverse (c ← cs; contents c)) with
    | Some m => Some (SettingMetadata.defaultValue m)
    | None => PlainObject.own result !! k
    end.
Proof.
  intros Hk Hproto. revert result.
  induction cs as [|c cs IH]; intros result; [done|].
  rewrite fmap_cons, bind_cons, reverse_app, find_app. simpl. rewrite IH.
  destruct (List.find _ (reverse (cs ≫= contents))); [done|].
  rewrite spread_lookup. unfold SettingsCategoryMetadata.defaultSettings.
  rewrite foldl_record_default_lookup by done.
  by destruct (List.find _ (reverse (contents c))).
Qed.

Lemma foldl_spread_has_prototype os result :
  PlainObject.has_prototype result = true →
  PlainObject.has_prototype (foldl PlainObject.spread result os) = true.
Proof.
  revert result. induction os as [|o os IH]; intros result Hp; [done|].
  simpl. by apply IH.
Qed.

(** X2: a read [defaultSettings()[k]] of the collection, for a non-empty
    [k] other than ["__proto__"], yields the default value of the last
    entry in document order whose name is [k]; so where two settings share
    a name the later one wins, while [metadataFor] returns the earlier one.
    When no entry has the name, the read falls through to
    [Object.prototype]: it yields the inherited member for a key such as
    ["toString"] and undefined for any other key. *)
Theorem defaultSettings_last_match (s : Settings) (k : string) :
  k ≠ "" → k ≠ "__proto__" →
  PlainObject.get (SettingsMetadata.defaultSettings s) k
  = match List.find (λ m, loose_eq (SettingMetadata.name m) (Some k))
                    (reverse (entries s)) with
    | Some m => PlainObject.Primitive (SettingMetadata.defaultValue m)
    | None =>
        if bool_decide (k ∈ PlainObject.object_prototype_keys)
        then PlainObject.Builtin k
        else PlainObject.Primitive PUndefined
    end.
Proof.
  intros Hk Hproto. unfold PlainObject.get, SettingsMetadata.defaultSettings.
  rewrite foldl_spread_lookup by done. fold (entries s).
  destruct (List.find _ (reverse (entries s))); [done|].
  by rewrite foldl_spread_has_prototype.
Qed.

Lemma defaultSettings_last_match_witness :
  let s := {| categories :=
    [ {| category_name := PStr "Editing";
         contents := [ MText (Some "author") (PStr "Author") (PStr "me");
                       MHtmlPanel (PStr "<hr>") ] |};
      {| category_name := PStr "Export";
         contents := [ MText (Some "author") (PStr "Author") (PStr "you") ]
      |} ] |} in
  PlainObject.get (SettingsMetadata.defaultSettings s) "author"
  = PlainObject.Primitive (PStr "you")
  ∧ PlainObject.get (SettingsMetadata.defaultSettings s) "toString"
    = PlainObject.Builtin "toString"
  ∧ PlainObject.get (SettingsMetadata.defaultSettings s) "editor"
    = PlainObject.Primitive PUndefined.
Proof.
  intros s.
  split; [|split].
  - exact (defaultSettings_last_match s "author"
             ltac:(discriminate) ltac:(discriminate)).
  - exact (defaultSettings_last_match s "toString"
             ltac:(discriminate) ltac:(discriminate)).
  - exact (defaultSettings_last_match s "editor"
             ltac:(discriminate) ltac:(discriminate)).
Defined.

Lemma record_default_empty_key result m :
  PlainObject.own (SettingsCategoryMetadata.record_default result m) !! ""
  = PlainObject.own result !! "".
Proof.
  unfold SettingsCategoryMetadata.record_default.
  destruct (SettingMetadata.name m) as [k'|]; [|done].
  destruct (decide (k' = "")) as [->|Hk']; [done|].
  destruct (truthy_name (Some k')); [|done].
  by apply set_lookup_ne.
Qed.

Lemma defaultSettings_empty_key s :
  PlainObject.own (SettingsMetadata.defaultSettings s) !! "" = None.
Proof.
  unfold SettingsMetadata.defaultSettings.
  assert (∀ ms result,
    PlainObject.own (foldl SettingsCategoryMetadata.record_default result ms)
      !! "" = PlainObject.own result !! "") as Hcategory.
  { induction ms as [|m ms IH]; intros result; [done|].
    simpl. by rewrite IH, record_default_empty_key. }
  assert (∀ cs result,
    PlainObject.own
      (foldl PlainObject.spread result
             (SettingsCategoryMetadata.defaultSettings <$> cs)) !! ""
    = PlainObject.own result !! "") as Hall.
  { induction cs as [|c cs IH]; intros result; [done|].
    rewrite fmap_cons. simpl. rewrite IH, spread_lookup.
    unfold SettingsCategoryMetadata.defaultSettings. by rewrite Hcategory. }
  by rewrite Hall.
Qed.

Lemma entries_elem s m :
  m ∈ entries s ↔ ∃ c, c ∈ categories s ∧ m ∈ contents c.
Proof.
  unfold entries. rewrite list_elem_of_bind. split.
  - intros (c & Hm & Hc). eauto.
  - intros (c & Hc & Hm). eauto.
Qed.

(** X3: [defaultSettings()] and [keys()] speak of the same names: for
    every [k] other than ["__proto__"], the object that [defaultSettings()]
    returns has an own property [k] exactly when [k] is among [keys()],
    whether or not names repeat. *)
Theorem defaultSettings_has_keys (s : Settings) (k : string) :
  k ≠ "__proto__" →
  is_Some (PlainObject.own (SettingsMetadata.defaultSettings s) !! k)
  ↔ Some k ∈ SettingsMetadata.keys s.
Proof.
  intros Hproto. rewrite settings_key_iff.
  destruct (decide (k = "")) as [->|Hk].
  { rewrite defaultSettings_empty_key. split.
    - by intros [? ?].
    - by intros [? _]. }
  unfold SettingsMetadata.defaultSettings.
  rewrite foldl_spread_lookup by done. fold (entries s).
  destruct (List.find _ (reverse (entries s))) as [m|] eqn:Hfind.
  - apply find_Some_elem in Hfind as [Hin Hname].
    apply elem_of_reverse, entries_elem in Hin as (c & Hc & Hm).
    apply loose_eq_spec in Hname. split; [|by eexists]. eauto 6.
  - split; [by intros [? ?]|]. intros (_ & c & m & Hc & Hm & Hname).
    rewrite find_None_elem in Hfind.
    assert (m ∈ reverse (entries s)) as Hin.
    { apply elem_of_reverse, entries_elem. eauto. }
    apply Hfind in Hin.
    by rewrite (proj2 (loose_eq_spec _ _) Hname) in Hin.
Qed.

Lemma defaultSettings_has_keys_witness :
  let s := {| categories :=
    [ {| category_name := PStr "Editing";
         contents := [ MText (Some "author") (PStr "Author") (PStr "me");
                       MBool (Some "") (PStr "Unnamed") (PBool true);
                       MText (Some "author") (PStr "Author") (PStr "you") ]
      |} ] |} in
  is_Some (PlainObject.own (SettingsMetadata.defaultSettings s) !! "author")
  ↔ Some "author" ∈ SettingsMetadata.keys s.
Proof.
  intros s. exact (defaultSettings_has_keys s "author" ltac:(discriminate)).
Defined.

(** ** Notes *)

Lemma note_new_unnamed content style n :
  NoteMetadata.new content style = Ok n →
  SettingMetadata.is_note n ∧ SettingMetadata.name n = None
  ∧ SettingMetadata.defaultValue n = PUndefined.
Proof.
  unfold NoteMetadata.new.
  destruct (ToBoolean style); [|by intros [= <-]].
  destruct (NoteMetadata.icon_of style); [by intros [= <-]|].
  by destruct (ToString style).
Qed.

(** X4: a note takes no part in the settings.  Putting a constructed
    [NoteMetadata] anywhere among the contents of a category changes neither
    the category's [keys()], nor its [defaultSettings()], nor what
    [metadataFor] returns for any string key. *)
Theorem notes_are_not_settings
    (content style : Prim) (n : Metadata) (name : Prim)
    (before after : list Metadata) (k : string) :
  NoteMetadata.new content style = Ok n →
  let without := {| category_name := name; contents := before ++ after |} in
  let with_note :=
    {| category_name := name; contents := before ++ n :: after |} in
  SettingsCategoryMetadata.keys with_note
  = SettingsCategoryMetadata.keys without
  ∧ SettingsCategoryMetadata.defaultSettings with_note
    = SettingsCategoryMetadata.defaultSettings without
  ∧ SettingsCategoryMetadata.metadataFor with_note (Some k)
    = SettingsCategoryMetadata.metadataFor without (Some k).
Proof.
  intros (_ & Hname & _)%note_new_unnamed without with_note.
  subst without with_note.
  unfold SettingsCategoryMetadata.keys,
    SettingsCategoryMetadata.defaultSettings,
    SettingsCategoryMetadata.metadataFor. simpl.
  split; [|split].
  - rewrite !fmap_app, fmap_cons, !filter_app, filter_cons, Hname.
    by rewrite decide_False by (simpl; auto).
  - rewrite !foldl_app. simpl.
    unfold SettingsCategoryMetadata.record_default at 2. by rewrite Hname.
  - rewrite !find_app. simpl. by rewrite Hname.
Qed.

Lemma notes_are_not_settings_witness :
  let n := MAlertBanner (PStr "warn") "warning" (PStr "Careful") in
  let before := [MText (Some "author") (PStr "Author") (PStr "me")] in
  let after := [MBool (Some "dark") (PStr "Dark") (PBool false)] in
  SettingsCategoryMetadata.keys
    {| category_name := PStr "General"; contents := before ++ n :: after |}
  = SettingsCategoryMetadata.keys
      {| category_name := PStr "General"; contents := before ++ after |}
  ∧ SettingsCategoryMetadata.defaultSettings
      {| category_name := PStr "General"; contents := before ++ n :: after |}
    = SettingsCategoryMetadata.defaultSettings
        {| category_name := PStr "General"; contents := before ++ after |}
  ∧ SettingsCategoryMetadata.metadataFor
      {| category_name := PStr "General"; contents := before ++ n :: after |}
      (Some "dark")
    = SettingsCategoryMetadata.metadataFor
        {| category_name := PStr "General"; contents := before ++ after |}
        (Some "dark").
Proof.
  intros n before after.
  exact (notes_are_not_settings (PStr "Careful") (PStr "warn") n
           (PStr "General") before after "dark" eq_refl).
Defined.

(** ** [convert] *)

(** X6: a boolean setting reads stored values back.  Whatever the data,
    [convert] of a [BoolSettingMetadata] returns a boolean and converting
    that result again changes nothing; a boolean that was stored as the
    string that a template literal makes of it (["true"] or ["false"]) is
    converted back to the same boolean; and the result is true only for
    [true] and ["true"]. *)
Theorem bool_convert_reads_back
    (name : option string) (label d data : Prim) (b : bool) :
  let m := BoolSettingMetadata name label d in
  (∃ r, SettingMetadata.convert m data = Ok (PBool r)
        ∧ SettingMetadata.convert m (PBool r) = Ok (PBool r)
        ∧ (r = true ↔ data = PBool true ∨ data = PStr "true"))
  ∧ SettingMetadata.convert m (PBool b) = Ok (PBool b)
  ∧ (s ← ToString (PBool b); SettingMetadata.convert m (PStr s))
    = Ok (PBool b).
Proof.
  simpl. split; [|by destruct b].
  eexists. split; [reflexivity|]. unfold strict_eq. split.
  - by repeat case_bool_decide.
  - rewrite orb_true_iff, !bool_decide_eq_true. done.
Qed.

Lemma constructed_values_are_strings name label options d m :
  CategorySettingMetadata name label options d = Ok m →
  ∀ v, v ∈ value <$> SettingMetadata.items m → ∃ s, v = PStr s.
Proof.
  intros (t & its & -> & _ & Hits)%CategorySettingMetadata_Ok v Hv.
  simpl in Hv. apply list_elem_of_fmap in Hv as (it & -> & Hit).
  induction Hits as [|o it' os its (s & _ & Hs & _) _ IH].
  - by apply elem_of_nil in Hit.
  - apply elem_of_cons in Hit as [->|Hit]; eauto.
Qed.

Lemma category_convert_member n l dv its s :
  PStr s ∈ value <$> its →
  SettingMetadata.convert (MCategory n l dv its) (PStr s) = Ok (PStr s).
Proof.
  intros Hin. simpl.
  rewrite (some_value_is_spec _ _ s) by done.
  by rewrite bool_decide_eq_true_2.
Qed.

(** X7: [convert] of a category setting is idempotent: on a setting that
    [CategorySettingMetadata] constructed, whenever [convert( data )]
    returns a value, converting that value again returns it unchanged. *)
Theorem category_convert_idempotent
    (name : option string) (label : Prim) (options : list Prim) (d : Prim)
    (m : Metadata) (data v : Prim) :
  CategorySettingMetadata name label options d = Ok m →
  SettingMetadata.convert m data = Ok v →
  SettingMetadata.convert m v = Ok v.
Proof.
  intros Hm Hv.
  pose proof (constructed_values_are_strings _ _ _ _ _ Hm) as Hstrings.
  apply CategorySettingMetadata_Ok in Hm as (t & its & -> & _ & _).
  simpl in Hstrings.
  assert (v ∈ value <$> its) as Hin.
  { simpl in Hv.
    destruct (SettingMetadata.some_value_is its data) as [[]|] eqn:Hsome;
      simpl in Hv; [| |done].
    - destruct (ToString data) as [s|] eqn:Hs; [|done].
      injection Hv as <-.
      rewrite (some_value_is_spec _ _ s) in Hsome by done.
      injection Hsome as Hsome. by apply bool_decide_eq_true in Hsome.
    - destruct its as [|it its]; [done|]. injection Hv as <-.
      apply elem_of_cons. auto. }
  destruct (Hstrings v Hin) as [s ->].
  by apply category_convert_member.
Qed.

Lemma category_convert_idempotent_witness :
  let m := MCategory (Some "size") (PStr "Size") (PStr "10")
             [ {| value := PStr "10"; text := PStr "10" |};
               {| value := PStr "12"; text := PStr "12" |} ] in
  SettingMetadata.convert m (PStr "10") = Ok (PStr "10").
Proof.
  intros m.
  exact (category_convert_idempotent (Some "size") (PStr "Size")
           [PNum 10; PNum 12] (PNum 10) m (PStr "14") (PStr "10")
           eq_refl eq_refl).
Defined.

(** X8: the default value of a constructed category setting survives
    [convert] exactly when it is one of the option values; a default that
    is not on the list of options is replaced by the first option. *)
Theorem category_convert_default
    (name : option string) (label : Prim) (options : list Prim) (d : Prim)
    (m : Metadata) :
  options ≠ [] →
  CategorySettingMetadata name label options d = Ok m →
  let values := value <$> SettingMetadata.items m in
  (SettingMetadata.convert m (SettingMetadata.defaultValue m)
   = Ok (SettingMetadata.defaultValue m)
   ↔ SettingMetadata.defaultValue m ∈ values)
  ∧ (SettingMetadata.defaultValue m ∉ values →
     ∃ first, values !! 0 = Some first
       ∧ SettingMetadata.convert m (SettingMetadata.defaultValue m)
         = Ok first).
Proof.
  intros Hne Hm values. subst values.
  apply CategorySettingMetadata_Ok in Hm as (t & its & -> & _ & Hits).
  destruct Hits as [|o it os its _ _]; [done|].
  cbn [SettingMetadata.defaultValue SettingMetadata.items
       SettingMetadata.convert].
  rewrite (some_value_is_spec _ _ t) by done.
  case_bool_decide as Hin; simpl.
  - split; [done|]. by intros [].
  - split.
    + split; [|done]. intros [= Hfirst]. destruct Hin.
      rewrite <- Hfirst. apply elem_of_cons. auto.
    + intros _. by exists (value it).
Qed.

Lemma category_convert_default_witness :
  let m := MCategory (Some "size") (PStr "Size") (PStr "11")
             [ {| value := PStr "10"; text := PStr "10" |};
               {| value := PStr "12"; text := PStr "12" |} ] in
  (SettingMetadata.convert m (PStr "11") = Ok (PStr "11")
   ↔ PStr "11" ∈ [PStr "10"; PStr "12"])
  ∧ (PStr "11" ∉ [PStr "10"; PStr "12"] →
     ∃ first, [PStr "10"; PStr "12"] !! 0 = Some first
       ∧ SettingMetadata.convert m (PStr "11") = Ok first).
Proof.
  intros m.
  exact (category_convert_default (Some "size") (PStr "Size")
           [PNum 10; PNum 12] (PNum 11) m ltac:(discriminate) eq_refl).
Defined.

(** X9: a category setting constructed from an empty options list can
    convert nothing: [convert] throws a TypeError for every argument, a
    Symbol and the setting's own default value included. *)
Theorem category_convert_no_options
    (name : option string) (label d : Prim) (m : Metadata) (data : Prim) :
  CategorySettingMetadata name label [] d = Ok m →
  SettingMetadata.convert m data = Throw TypeError
  ∧ SettingMetadata.convert m (SettingMetadata.defaultValue m)
    = Throw TypeError.
Proof.
  intros (t & its & -> & _ & Hits)%CategorySettingMetadata_Ok.
  by inversion Hits.
Qed.

Lemma category_convert_no_options_witness :
  SettingMetadata.convert
    (MCategory (Some "size") (PStr "Size") (PStr "small") [])
    (PSymbol "s") = Throw TypeError
  ∧ SettingMetadata.convert
      (MCategory (Some "size") (PStr "Size") (PStr "small") [])
      (PStr "small") = Throw TypeError.
Proof.
  exact (category_convert_no_options (Some "size") (PStr "Size")
           (PStr "small") _ (PSymbol "s") eq_refl).
Defined.

(** ** The error of a note *)

(** X11: the error of an invalid note style names the style.  For a
    truthy style that is none of the four valid ones, [NoteMetadata] throws
    an [Error] whose message is ["Invalid note style: "] followed by the
    string form of the style; when the style is a Symbol, which has no
    string form, building that message throws a TypeError instead. *)
Theorem note_style_error (content style : Prim) :
  ToBoolean style → style ∉ NoteMetadata.styles →
  match ToString style with
  | Ok s =>
      NoteMetadata.new content style
      = Throw (Error ("Invalid note style: " +:+ s))
  | Throw _ =>
      is_symbol style ∧ NoteMetadata.new content style = Throw TypeError
  end.
Proof.
  intros Htruthy Hstyle. unfold NoteMetadata.new.
  destruct (ToBoolean style); [|done].
  destruct (NoteMetadata.icon_of style) as [icon|] eqn:Hicon.
  { destruct Hstyle. apply icon_of_styles. by eexists. }
  destruct style as [| |[]| | |]; done.
Qed.

Lemma note_style_error_witness :
  NoteMetadata.new (PStr "Saved.") (PNum 3)
  = Throw (Error "Invalid note style: 3").
Proof.
  exact (note_style_error (PStr "Saved.") (PNum 3) I
           ltac:(by apply (bool_decide_unpack _))).
Defined.

(** ** Controls *)

Lemma item_controls_without k its :
  k ≠ "value" → k ≠ "text" →
  existsb (has_property k) (SettingMetadata.item_json <$> its) = false.
Proof.
  intros Hvalue Htext. induction its as [|it its IH]; [done|].
  rewrite fmap_cons. cbn -[String.eqb]. rewrite IH.
  apply not_eq_sym, String.eqb_neq in Hvalue, Htext.
  by rewrite Hvalue, Htext.
Qed.

Lemma leaf_control_without_default m :
  has_property "defaultValue" (SettingMetadata.control m) = false.
Proof.
  destruct m as [| | | |n l d its| |]; try reflexivity.
  assert (SettingMetadata.control (MCategory n l d its)
          = JObj [("name", JPrim (of_name n)); ("label", JPrim l);
                  ("type", JPrim (PStr "selectbox"));
                  ("items", JArr (SettingMetadata.item_json <$> its))])
    as -> by reflexivity.
  cbn [has_property existsb fst snd].
  rewrite item_controls_without by done. reflexivity.
Qed.

Lemma controls_without {A} (k : string) (control : A → Json) (l : list A) :
  (∀ x, has_property k (control x) = false) →
  existsb (has_property k) (control <$> l) = false.
Proof.
  intros Hcontrol. induction l as [|x l IH]; [done|].
  rewrite fmap_cons. cbn [existsb]. by rewrite Hcontrol, IH.
Qed.

(** X12: default values never reach the dialog.  In the control that
    [SettingsMetadata.control()] builds for the whole collection, no
    object at any depth (the tab panel, a tab, the control of an entry, an
    item of a select box) has a [defaultValue] property. *)
Theorem control_hides_defaults (s : Settings) :
  has_property "defaultValue" (SettingsMetadata.control s) = false.
Proof.
  assert (∀ c, has_property "defaultValue"
                 (SettingsCategoryMetadata.control c) = false) as Hcategory.
  { intros c. unfold SettingsCategoryMetadata.control.
    cbn [has_property existsb fst snd].
    rewrite controls_without by apply leaf_control_without_default.
    reflexivity. }
  unfold SettingsMetadata.control. cbn [has_property existsb fst snd].
  rewrite controls_without by done. reflexivity.
Qed.

(** ** More on the expository-math atom *)

Module ExpositoryMathCoverage.
Import ExpositoryMath ExpositoryMathDialog ExpositoryMathProperties.

(** X13: [update()] renders and does nothing else: it fills the child
    ['body'] with the representation of the atom's ['latex'] metadata,
    leaves the metadata and every other child as they are, and doing it
    twice is the same as doing it once. *)
Theorem update_renders_body
    (represent : option string → string → string) (a : Atom) :
  children (update represent a) !! "body"
  = Some (represent (metadata a !! "latex") "latex")
  ∧ metadata (update represent a) = metadata a
  ∧ delete "body" (children (update represent a))
    = delete "body" (children a)
  ∧ update represent (update represent a) = update represent a.
Proof.
  rewrite !update_spec. simpl.
  split; [apply lookup_insert_eq|]. split; [done|].
  split; [apply delete_insert_eq|].
  by rewrite insert_insert_eq.
Qed.

Lemma perform_enters action w :
  latex_input (perform action w).2 = entered action
  ∧ math_editor (perform action w).2 = entered action.
Proof. destruct action; split; reflexivity. Qed.

Lemma final_value_cons latex action script :
  final_value latex (action :: script)
  = final_value (entered action) script.
Proof.
  unfold final_value. destruct script as [|action' script]; [done|].
  rewrite last_cons_cons.
  destruct (last (action' :: script)) eqn:Hlast; [done|].
  by apply last_None in Hlast.
Qed.

Lemma perform_all_final_value script w :
  latex_input (perform_all script w).2
  = final_value (latex_input w) script.
Proof.
  revert w. induction script as [|action script IH]; intros w; [done|].
  rewrite final_value_cons. cbn [perform_all]. unfold mbind, UI_bind.
  pose proof (perform_enters action w) as [Hlatex _].
  destruct (perform action w) as [[] w1]. simpl in Hlatex.
  by rewrite IH, Hlatex.
Qed.

(** X14: the dialog holds what the user entered last.  After any sequence
    of edits, in the text input or in the MathLive editor, both widgets
    show the value of the last edit, or the latex the dialog opened on when
    there was no edit. *)
Theorem dialog_shows_last_entry
    (a : Atom) (latex : string) (script : list UserAction) :
  let w := (perform_all script (open_dialog a latex)).2 in
  latex_input w = final_value latex script
  ∧ math_editor w = final_value latex script.
Proof.
  intros w. subst w.
  pose proof (dialog_stays_synchronized a latex script) as (Hsync & _ & _).
  cbn zeta in Hsync. rewrite <- Hsync.
  split; apply perform_all_final_value.
Qed.

Lemma edit_spec represent a latex script userHitOK :
  metadata a !! "latex" = Some latex →
  edit represent a script userHitOK
  = Some (if userHitOK
             && negb (String.eqb (trim (final_value latex script)) "")
          then (true, update represent
                        (setMetadata "latex" (final_value latex script) a))
          else (false, a)).
Proof.
  intros Hlatex. unfold edit. rewrite Hlatex. simpl.
  pose proof (dialog_stays_synchronized a latex script) as (_ & _ & Hatom).
  pose proof (perform_all_final_value script (open_dialog a latex)) as Hv.
  destruct (perform_all script (open_dialog a latex)) as [[] w].
  simpl in *. rewrite onShown_spec, Hv, Hatom.
  destruct (userHitOK && _); simpl; by rewrite ?Hatom.
Qed.

(** X15: a confirmed edit never stores blank latex.  Whenever [edit()]
    resolves to true the user has hit OK and the ['latex'] metadata of the
    atom is the value entered last, which is not empty after trimming. *)
Theorem edit_never_stores_blank
    (represent : option string → string → string) (a a' : Atom)
    (script : list UserAction) (userHitOK : bool) :
  edit represent a script userHitOK = Some (true, a') →
  userHitOK = true
  ∧ ∃ latex v,
      metadata a !! "latex" = Some latex
      ∧ v = final_value latex script
      ∧ metadata a' !! "latex" = Some v
      ∧ trim v ≠ "".
Proof.
  intros Hedit.
  destruct (metadata a !! "latex") as [latex|] eqn:Hlatex;
    [|by unfold edit in Hedit; rewrite Hlatex in Hedit].
  rewrite (edit_spec _ _ latex) in Hedit by done.
  destruct userHitOK; [|done]. split; [done|].
  exists latex, (final_value latex script). simpl in Hedit.
  destruct (String.eqb (trim (final_value latex script)) "") eqn:Hblank;
    [done|].
  injection Hedit as <-. split; [done|]. split; [done|].
  split; [apply lookup_insert_eq|]. by apply String.eqb_neq.
Qed.

Lemma edit_never_stores_blank_witness :
  let represent : option string → string → string :=
    λ latex notation, default "" latex in
  let a := {| metadata := {[ "latex" := "" ]}; children := ∅ |} in
  true = true
  ∧ ∃ latex v,
      metadata a !! "latex" = Some latex
      ∧ v = final_value latex [EditMath "x"; TypeLatex " x+1 "]
      ∧ metadata
          (update represent (setMetadata "latex" " x+1 " a)) !! "latex"
        = Some v
      ∧ trim v ≠ "".
Proof.
  intros represent a.
  exact (edit_never_stores_blank represent a _
           [EditMath "x"; TypeLatex " x+1 "] true eq_refl).
Defined.

(** X16: [edit()] touches nothing but the ['latex'] metadata and the
    ['body'] child of the atom: every other metadata entry, such as the
    atom's type, and every other child is the same afterwards, however the
    dialog was closed. *)
Theorem edit_frame
    (represent : option string → string → string) (a a' : Atom)
    (script : list UserAction) (userHitOK result : bool) :
  edit represent a script userHitOK = Some (result, a') →
  delete "latex" (metadata a') = delete "latex" (metadata a)
  ∧ delete "body" (children a') = delete "body" (children a).
Proof.
  intros Hedit.
  destruct (metadata a !! "latex") as [latex|] eqn:Hlatex;
    [|by unfold edit in Hedit; rewrite Hlatex in Hedit].
  rewrite (edit_spec _ _ latex) in Hedit by done.
  destruct (userHitOK && _); injection Hedit as <- <-; [|done].
  rewrite update_spec. simpl.
  split; apply delete_insert_eq.
Qed.

Lemma edit_frame_witness :
  let represent : option string → string → string :=
    λ latex notation, default "" latex in
  let a := {| metadata := {[ "type" := "expositorymath"; "latex" := "" ]};
              children := ∅ |} in
  let a' := update represent (setMetadata "latex" "x" a) in
  delete "latex" (metadata a') = delete "latex" (metadata a)
  ∧ delete "body" (children a') = delete "body" (children a).
Proof.
  intros represent a a'.
  exact (edit_frame represent a a' [TypeLatex "x"] true true eq_refl).
Defined.

(** *** [toEmbed] *)

Lemma append_cons c x s : String c x +:+ s = String c (x +:+ s).
Proof. reflexivity. Qed.

Lemma length_append x s :
  String.length (x +:+ s) = String.length x + String.length s.
Proof.
  induction x as [|c x IH]; [done|]. rewrite append_cons. simpl. by rewrite IH.
Qed.

Lemma append_inj_suffix x y s : x +:+ s = y +:+ s → x = y.
Proof.
  revert y. induction x as [|c x IH]; intros [|c' y] Heq; [done|..].
  - apply (f_equal String.length) in Heq.
    rewrite !length_append in Heq. simpl in Heq. lia.
  - apply (f_equal String.length) in Heq.
    rewrite !length_append in Heq. simpl in Heq. lia.
  - rewrite !append_cons in Heq. injection Heq as -> Heq.
    f_equal. by apply IH.
Qed.

(** X17: the embedding of an atom tells its latex apart: two atoms that
    carry ['latex'] metadata have the same [toEmbed()] exactly when their
    latex is the same; rendering with [update()] does not change the
    embedding; and an atom without ['latex'] metadata embeds like one whose
    latex is the word ["undefined"]. *)
Theorem toEmbed_tells_latex
    (represent : option string → string → string) (a b : Atom)
    (la lb : string) :
  getMetadata a "latex" = Some la →
  getMetadata b "latex" = Some lb →
  (toEmbed a = toEmbed b ↔ la = lb)
  ∧ toEmbed a = "<latex>" +:+ la +:+ "</latex>"
  ∧ toEmbed (update represent a) = toEmbed a
  ∧ toEmbed {| metadata := delete "latex" (metadata a);
               children := children a |}
    = "<latex>undefined</latex>".
Proof.
  intros Ha Hb. unfold toEmbed. rewrite Ha, Hb. simpl.
  split; [|split; [done|split]].
  - split; [|by intros ->].
    intros Heq. apply (inj (String.app "<latex>")) in Heq.
    by apply append_inj_suffix in Heq.
  - rewrite update_spec. unfold getMetadata in *. simpl. by rewrite Ha.
  - unfold getMetadata. simpl. by rewrite lookup_delete_eq.
Qed.

Lemma toEmbed_tells_latex_witness :
  let represent : option string → string → string :=
    λ latex notation, default "" latex in
  let a := {| metadata := {[ "latex" := "x^2" ]}; children := ∅ |} in
  let b := {| metadata := {[ "latex" := "x^3" ]};
              children := {[ "body" := "x^3" ]} |} in
  (toEmbed a = toEmbed b ↔ "x^2" = "x^3")
  ∧ toEmbed a = "<latex>x^2</latex>"
  ∧ toEmbed (update represent a) = toEmbed a
  ∧ toEmbed {| metadata := delete "latex" (metadata a);
               children := children a |}
    = "<latex>undefined</latex>".
Proof.
  intros represent a b.
  exact (toEmbed_tells_latex represent a b "x^2" "x^3" eq_refl eq_refl).
Defined.

(** *** The Enter key and the editor type *)

(** X18: in the dialog of [edit()], however the user has edited so far,
    the [keydown] listener on the latex input swallows the Enter key exactly
    when the OK button is disabled, that is when the latex is blank; it
    lets every other key through. *)
Theorem enter_blocked_when_OK_disabled
    (a : Atom) (latex : string) (script : list UserAction) (key : string) :
  let w := (perform_all script (open_dialog a latex)).2 in
  ∃ ok,
    enabled w !! "OK" = Some ok
    ∧ ok = negb (String.eqb (trim (latex_input w)) "")
    ∧ on_keydown key w
      = if String.eqb key "Enter" && negb ok
        then [PreventDefault; StopPropagation]
        else [].
Proof.
  intros w.
  pose proof (dialog_stays_synchronized a latex script) as (_ & Hok & _).
  fold w in Hok. eexists. split; [exact Hok|]. split; [done|].
  unfold on_keydown. rewrite empty_spec. simpl.
  by rewrite negb_involutive.
Qed.

(** X19: whatever the editor type, the dialog leaves a widget to type
    into: the MathLive editor is made read-only only for ['Advanced'] and
    the latex input is hidden only for ['Beginner'], never both.  The
    header and the footer are hidden, and the labels empty, exactly when
    the MathLive editor is read-only; and a type that is neither of the two
    words, undefined included, gets the dialog with both widgets in use. *)
Theorem dialog_setup_modes (mode : Prim) :
  let d := dialog_setup mode in
  sets_readOnly d && latex_hidden d = false
  ∧ hideHeader d = sets_readOnly d
  ∧ hideFooter d = sets_readOnly d
  ∧ (latex_label d = "" ↔ sets_readOnly d = true)
  ∧ (preview_label d = "" ↔ sets_readOnly d = true)
  ∧ (sets_readOnly d = true ↔ mode = PStr "Advanced")
  ∧ (latex_hidden d = true ↔ mode = PStr "Beginner")
  ∧ d = dialog_setup
          (if sets_readOnly d then PStr "Advanced"
           else if latex_hidden d then PStr "Beginner"
           else PUndefined).
Proof.
  unfold dialog_setup, is_mode, strict_eq. simpl.
  destruct (decide (mode = PStr "Advanced")) as [->|Hadvanced].
  { repeat split; done. }
  rewrite !(bool_decide_eq_false_2 _ Hadvanced).
  destruct (decide (mode = PStr "Beginner")) as [->|Hbeginner].
  { repeat split; done. }
  rewrite !(bool_decide_eq_false_2 _ Hbeginner).
  repeat split; done.
Qed.

(** *** [install], twice *)

(** X20: [install] is to be called once per editor.  A second call
    registers the same menu item again, leaving the registry as after the
    first, but adds a second callback for ['init'] and so a second keypress
    listener: after ['init'] a key press runs the listener of [install]
    twice, and [$] with the shortcut enabled starts two insertions. *)
Theorem install_twice
    (represent : option string → string → string) (editor : Editor)
    (settings : gmap string Prim) (key : string) :
  let once := install represent editor in
  let twice := install represent once in
  registry twice = registry once
  ∧ press (fire "init" twice) settings key
    = press (fire "init" editor) settings key
      ++ on_keypress represent settings key
      ++ on_keypress represent settings key
  ∧ press (fire "init" twice)
          (<["dollar sign shortcut" := PBool true]> settings) "$"
    = press (fire "init" editor)
            (<["dollar sign shortcut" := PBool true]> settings) "$"
      ++ ([PreventDefault; StopPropagation]
          ++ insertExpositoryMath represent)
      ++ ([PreventDefault; StopPropagation]
          ++ insertExpositoryMath represent).
Proof.
  intros once twice.
  assert (∀ settings' key',
    press (fire "init" twice) settings' key'
    = press (fire "init" editor) settings' key'
      ++ on_keypress represent settings' key'
      ++ on_keypress represent settings' key') as Hpress.
  { intros settings' key'. rewrite app_assoc.
    rewrite (press_snoc (fire "init" once) (fire "init" twice) _ _
               (on_keypress represent)).
    - f_equal. apply press_snoc.
      subst once. unfold install. by rewrite fire_editor_on.
    - subst twice. unfold install at 1. by rewrite fire_editor_on. }
  split.
  { subst twice once. unfold install. simpl. apply insert_insert_eq. }
  split; [apply Hpress|].
  rewrite Hpress. unfold on_keypress, appSettings_get.
  by rewrite lookup_insert_eq.
Qed.
End ExpositoryMathCoverage.

(** ** [control()], called again *)

Section control_again.
Context {V : Type}.
Implicit Types (h : gmap positive (gmap string V)) (o : gmap string V).

(** X21: every call of [control()] on a record returns an object of its
    own: two calls in a row give two distinct objects, both different from
    the record, with the same properties (those of the record without
    [defaultValue]); and the record is still what it was. *)
Theorem control_twice this h o :
  h !! this = Some o →
  ∃ first h1 second h2,
    Heap.control this h = Some (first, h1)
    ∧ Heap.control this h1 = Some (second, h2)
    ∧ first ≠ second ∧ first ≠ this ∧ second ≠ this
    ∧ h2 !! first = Some (delete "defaultValue" o)
    ∧ h2 !! second = Some (delete "defaultValue" o)
    ∧ h2 !! this = Some o.
Proof.
  intros Ho.
  pose proof (fresh_unallocated h) as Hfresh.
  set (first := fresh (dom h)) in *.
  set (h1 := Heap.delete_property first "defaultValue" (<[first := o]> h)).
  assert (first ≠ this) as Hfirst by congruence.
  assert (h1 !! this = Some o) as Ho1.
  { unfold h1, Heap.delete_property.
    by rewrite lookup_alter_ne, lookup_insert_ne. }
  assert (h1 !! first = Some (delete "defaultValue" o)) as Hfirst1.
  { unfold h1, Heap.delete_property.
    by rewrite lookup_alter_eq, lookup_insert_eq. }
  pose proof (fresh_unallocated h1) as Hfresh1.
  set (second := fresh (dom h1)) in *.
  assert (second ≠ this) as Hsecond by congruence.
  assert (first ≠ second) as Hne by congruence.
  exists first, h1, second,
    (Heap.delete_property second "defaultValue" (<[second := o]> h1)).
  split.
  { unfold Heap.control. by rewrite (copy_allocates _ _ o). }
  split.
  { unfold Heap.control. by rewrite (copy_allocates _ _ o). }
  split; [done|]. split; [done|]. split; [done|].
  unfold Heap.delete_property at 1 2 3.
  split; [by rewrite lookup_alter_ne, lookup_insert_ne|].
  split; [by rewrite lookup_alter_eq, lookup_insert_eq|].
  by rewrite lookup_alter_ne, lookup_insert_ne.
Qed.

End control_again.

Lemma control_twice_witness :
  let o : gmap string Prim :=
    {[ "name" := PStr "dark"; "defaultValue" := PBool false ]} in
  let h : gmap positive (gmap string Prim) := {[ 1%positive := o ]} in
  ∃ first h1 second h2,
    Heap.control 1%positive h = Some (first, h1)
    ∧ Heap.control 1%positive h1 = Some (second, h2)
    ∧ first ≠ second ∧ first ≠ 1%positive ∧ second ≠ 1%positive
    ∧ h2 !! first = Some (delete "defaultValue" o)
    ∧ h2 !! second = Some (delete "defaultValue" o)
    ∧ h2 !! 1%positive = Some o.
Proof.
  intros o h. exact (control_twice 1%positive h o eq_refl).
Defined.
